(** * BLE telemetry drivers: DL24 test load and UD18 USB meter

    A shallow embedding of [dl24testload.py] and [ud18usbmeter.py].
    Both files define one class each ([DL24TestLoad], [UD18UsbMeter]);
    the methods [find_device] and [connect] are textually identical in the
    two classes, and [handle_data] differs only in the four lines that turn
    a 36-byte packet into numbers.  The class of an object is kept as a tag
    ([cls]) and the shared methods are written once.

    Python values are modelled as follows.
    - [int] is [Z] (unbounded), [<<] is [Z.shiftl].
    - [float] is the primitive binary64 float of Rocq, which is the IEEE 754
      double that CPython uses; [/] on floats is [PrimFloat.div].
    - [bytearray] is [list byte]; indexing raises [IndexError] out of range.
    - [str] is [string] (the texts handled here are ASCII).
    - an attribute access on [None] raises [AttributeError].
    - the Bleak library (scanner, client, notifications) is outside the
      repository: it is an oracle and a log inside [World]. *)

From Stdlib Require Import ZArith List String Ascii Strings.Byte Bool Arith Lia.
From Stdlib Require Import Floats.PrimFloat Numbers.Cyclic.Int63.Uint63.
Import ListNotations.

Open Scope string_scope.
Open Scope Z_scope.

(** ** Results of Python computations *)

Inductive PyExn : Type :=
| AttributeError   (* attribute access on None *)
| IndexError.      (* bytearray index out of range *)

(** [Diverged] is only produced when the fuel of a [while] loop runs out. *)
Inductive Res (A : Type) : Type :=
| Ok (a : A)
| Raise (e : PyExn)
| Diverged.

Arguments Ok {A} a.
Arguments Raise {A} e.
Arguments Diverged {A}.

Definition rbind {A B : Type} (c : Res A) (k : A -> Res B) : Res B :=
  match c with
  | Ok a => k a
  | Raise e => Raise e
  | Diverged => Diverged
  end.

Declare Scope res_scope.
Delimit Scope res_scope with res.
Notation "x <-? c ;; k" := (rbind c (fun x => k))
  (at level 61, c at next level, right associativity) : res_scope.

(** ** Numbers *)

(** [float(int(n))]: exact for [0 <= n < 2^53]; every integer converted by
    the drivers is below [2^32]. *)
Definition float_of_int (n : Z) : float := PrimFloat.of_uint63 (Uint63.of_Z n).

(** The fourth argument of the callback is an [int] in one class and a
    [float] in the other. *)
Inductive PyNum : Type :=
| PyInt (z : Z)
| PyFloat (f : float).

(** ** Byte arrays *)

Definition bytearray : Type := list byte.

Definition byte_val (b : byte) : Z := Z.of_N (Byte.to_N b).

(** [data[i]] for a non-negative literal index [i]. *)
Definition getitem (data : bytearray) (i : nat) : Res Z :=
  match nth_error data i with
  | Some b => Ok (byte_val b)
  | None => Raise IndexError
  end.

(** ** Strings *)

Definition lower_ascii (c : ascii) : ascii :=
  let n := nat_of_ascii c in
  if (65 <=? n)%nat && (n <=? 90)%nat then ascii_of_nat (n + 32) else c.

(** [s.lower()] on ASCII text. *)
Fixpoint lower (s : string) : string :=
  match s with
  | EmptyString => EmptyString
  | String c s' => String (lower_ascii c) (lower s')
  end.

(** Characters for which [str.isspace] holds, in the ASCII range. *)
Definition is_space (c : ascii) : bool :=
  let n := nat_of_ascii c in
  ((9 <=? n)%nat && (n <=? 13)%nat) || ((28 <=? n)%nat && (n <=? 32)%nat).

Fixpoint lstrip (s : string) : string :=
  match s with
  | EmptyString => EmptyString
  | String c s' => if is_space c then lstrip s' else s
  end.

Fixpoint rstrip (s : string) : string :=
  match s with
  | EmptyString => EmptyString
  | String c s' =>
      match rstrip s' with
      | EmptyString => if is_space c then EmptyString else String c EmptyString
      | r => String c r
      end
  end.

(** [s.strip()] *)
Definition strip (s : string) : string := rstrip (lstrip s).

Definition hex_digit (n : Z) : ascii :=
  if n <? 10 then ascii_of_nat (Z.to_nat (48 + n))
  else ascii_of_nat (Z.to_nat (55 + n)).

(** ["%02X " % d] for [0 <= d < 256], the range of a bytearray element. *)
Definition fmt_02X_sp (d : Z) : string :=
  String (hex_digit (d / 16)) (String (hex_digit (d mod 16)) " ").

Definition newline : string := String (ascii_of_nat 10) EmptyString.
Definition dquote : string := String (ascii_of_nat 34) EmptyString.

(** ** Data model *)

(** Which of the two classes an object belongs to. *)
Inductive DeviceVariant : Type :=
| CurrentLoadMeter   (* class DL24TestLoad, dl24testload.py *)
| UsbPowerMeter.     (* class UD18UsbMeter, ud18usbmeter.py *)

(** An entry of the list returned by [BleakScanner.discover()].  The
    drivers read its [name] and [address], both taken as text. *)
Record BLEDevice : Type := mkDevice {
  name : string;
  address : string
}.

(** [BleakClient(address)] *)
Record BleakClient : Type := mkClient {
  client_address : string
}.

(** The arguments [(v, a, mah, wh)] handed to the callback. *)
Record Reading : Type := mkReading {
  voltageVolts : float;
  currentAmps : float;
  capacityMilliampHours : Z;
  energyWattHours : PyNum
}.

Inductive FailureReason : Type := WrongLength | UnrecognizedPayload.

Inductive DecodeOutcome : Type :=
| Decoded (r : Reading)
| DecodeFailure (reason : FailureReason).

(** ** Packet layouts *)

Module DL24TestLoad.

Definition default_dev_name : string := "DL24_BLE".

(** dl24testload.py, lines 74-77. *)
Definition parse_packet (data : bytearray) : Res Reading :=
  (d4 <-? getitem data 4 ;; d5 <-? getitem data 5 ;; d6 <-? getitem data 6 ;;
   let v := PrimFloat.div
              (float_of_int (Z.shiftl d4 16 + Z.shiftl d5 8 + d6)) 10%float in
   d7 <-? getitem data 7 ;; d8 <-? getitem data 8 ;; d9 <-? getitem data 9 ;;
   let a := PrimFloat.div
              (float_of_int (Z.shiftl d7 16 + Z.shiftl d8 8 + d9)) 1000%float in
   d10 <-? getitem data 10 ;; d11 <-? getitem data 11 ;; d12 <-? getitem data 12 ;;
   let mah := (Z.shiftl d10 16 + Z.shiftl d11 8 + d12) * 10 in
   d13 <-? getitem data 13 ;; d14 <-? getitem data 14 ;; d15 <-? getitem data 15 ;;
   d16 <-? getitem data 16 ;;
   let wh := (Z.shiftl d13 24 + Z.shiftl d14 16 + Z.shiftl d15 8 + d16) * 10 in
   Ok (mkReading v a mah (PyInt wh)))%res.

End DL24TestLoad.

Module UD18UsbMeter.

Definition default_dev_name : string := "UD18_BLE".

(** ud18usbmeter.py, lines 74-77. *)
Definition parse_packet (data : bytearray) : Res Reading :=
  (d5 <-? getitem data 5 ;; d6 <-? getitem data 6 ;;
   let v := PrimFloat.div (float_of_int (Z.shiftl d5 8 + d6)) 100%float in
   d8 <-? getitem data 8 ;; d9 <-? getitem data 9 ;;
   let a := PrimFloat.div (float_of_int (Z.shiftl d8 8 + d9)) 100%float in
   d10 <-? getitem data 10 ;; d11 <-? getitem data 11 ;; d12 <-? getitem data 12 ;;
   let mah := Z.shiftl d10 16 + Z.shiftl d11 8 + d12 in
   d13 <-? getitem data 13 ;; d14 <-? getitem data 14 ;; d15 <-? getitem data 15 ;;
   d16 <-? getitem data 16 ;;
   let wh := PrimFloat.div
               (float_of_int
                  (Z.shiftl d13 24 + Z.shiftl d14 16 + Z.shiftl d15 8 + d16))
               100%float in
   Ok (mkReading v a mah (PyFloat wh)))%res.

End UD18UsbMeter.

Definition default_data_char_uuid : string :=
  "0000ffe1-0000-1000-8000-00805f9b34fb".

Definition parse_packet (cls : DeviceVariant) (data : bytearray) : Res Reading :=
  match cls with
  | CurrentLoadMeter => DL24TestLoad.parse_packet data
  | UsbPowerMeter => UD18UsbMeter.parse_packet data
  end.

(** The length gate and the field extraction of [handle_data] (lines 72 to
    the final [pass]) read as a function of the class and the packet: the
    [if] branch yields the numbers handed to the callback, the [else: pass]
    branch is the outcome called WrongLength. *)
Definition decode (cls : DeviceVariant) (data : bytearray) : Res DecodeOutcome :=
  if (List.length data =? 36)%nat
  then (r <-? parse_packet cls data ;; Ok (Decoded r))%res
  else Ok (DecodeFailure WrongLength).

(** ** Objects and the outside world *)

Section Driver.

(** [U] is the state the consumer's callback works on. *)
Context {U : Type}.

(** [callback(v, a, mah, wh)] *)
Definition Callback : Type := float -> float -> Z -> PyNum -> U -> U.

(** The attributes set by [__init__], and the class of the object. *)
Record Meter : Type := mkMeter {
  cls : DeviceVariant;
  dev_name : string;
  data_char_uuid : string;
  dev_mac_addr : option string;
  callback : option Callback;
  device : option BLEDevice;
  client : option BleakClient
}.

(** [__init__] with its defaults spelled out by the caller. *)
Definition init (c : DeviceVariant) (dev_name : string)
    (dev_mac_addr : option string) (data_char_uuid : string)
    (callback : option Callback) : Meter :=
  mkMeter c dev_name data_char_uuid dev_mac_addr callback None None.

Definition set_device (self : Meter) (d : option BLEDevice) : Meter :=
  mkMeter (cls self) (dev_name self) (data_char_uuid self) (dev_mac_addr self)
          (callback self) d (client self).

Definition set_client (self : Meter) (c : option BleakClient) : Meter :=
  mkMeter (cls self) (dev_name self) (data_char_uuid self) (dev_mac_addr self)
          (callback self) (device self) c.

(** Everything outside the object: what the Bleak library will answer
    ([scan_results], [link_ok]), what has been asked of it so far
    ([scans_done], [connect_log], [notify_log]), standard output, and the
    consumer's state. *)
Record World : Type := mkWorld {
  scan_results : nat -> list BLEDevice;  (* answer of the n-th discover() *)
  scans_done : nat;
  link_ok : string -> bool;              (* answer of connect() per address *)
  connect_log : list string;
  notify_log : list string;              (* characteristics subscribed *)
  stdout : list string;
  user : U
}.

Definition St : Type := (Meter * World)%type.

(** Methods run in a state-and-exception monad over the object and the
    world. *)
Definition M (A : Type) : Type := St -> Res (A * St).

Definition ret {A : Type} (a : A) : M A := fun st => Ok (a, st).

Definition bind {A B : Type} (c : M A) (k : A -> M B) : M B :=
  fun st =>
    match c st with
    | Ok (a, st') => k a st'
    | Raise e => Raise e
    | Diverged => Diverged
    end.

Definition raise {A : Type} (e : PyExn) : M A := fun _ => Raise e.

Definition out_of_fuel {A : Type} : M A := fun _ => Diverged.

Definition lift {A : Type} (c : Res A) : M A :=
  fun st =>
    match c with
    | Ok a => Ok (a, st)
    | Raise e => Raise e
    | Diverged => Diverged
    end.

Definition get_self : M Meter := fun st => Ok (fst st, st).

Definition put_self (self : Meter) : M unit := fun st => Ok (tt, (self, snd st)).

Definition modify_world (f : World -> World) : M unit :=
  fun st => Ok (tt, (fst st, f (snd st))).

(** Writes [s] to standard output: [print] with an empty [end]. *)
Definition write (s : string) : M unit :=
  modify_world (fun w =>
    mkWorld (scan_results w) (scans_done w) (link_ok w) (connect_log w)
            (notify_log w) (stdout w ++ [s]) (user w)).

(** [print(s)] *)
Definition print (s : string) : M unit := write (s ++ newline).

(** [await BleakScanner.discover()] *)
Definition BleakScanner_discover : M (list BLEDevice) :=
  fun st =>
    let w := snd st in
    Ok (scan_results w (scans_done w),
        (fst st,
         mkWorld (scan_results w) (S (scans_done w)) (link_ok w)
                 (connect_log w) (notify_log w) (stdout w) (user w))).

(** [await client.connect()].  Within one world the answer depends on the
    address only; a link that answers differently at a later attempt is a
    later world with another [link_ok]. *)
Definition BleakClient_connect (c : BleakClient) : M bool :=
  fun st =>
    let w := snd st in
    Ok (link_ok w (client_address c),
        (fst st,
         mkWorld (scan_results w) (scans_done w) (link_ok w)
                 (connect_log w ++ [client_address c]) (notify_log w)
                 (stdout w) (user w))).

(** [await client.start_notify(uuid, self.handle_data)] *)
Definition BleakClient_start_notify (uuid : string) : M unit :=
  modify_world (fun w =>
    mkWorld (scan_results w) (scans_done w) (link_ok w) (connect_log w)
            (notify_log w ++ [uuid]) (stdout w) (user w)).

(** [self.callback(v, a, mah, wh)].  The consumer is taken to act on its
    own state only: a callback that writes, raises or reaches the object is
    outside this model. *)
Definition call (cb : Callback) (r : Reading) : M unit :=
  modify_world (fun w =>
    mkWorld (scan_results w) (scans_done w) (link_ok w) (connect_log w)
            (notify_log w) (stdout w)
            (cb (voltageVolts r) (currentAmps r) (capacityMilliampHours r)
                (energyWattHours r) (user w))).

(** [x.address] where [x] may be [None]. *)
Definition address_of (x : option BLEDevice) : M string :=
  match x with
  | Some d => ret (address d)
  | None => raise AttributeError
  end.

(** [x.name] where [x] may be [None]. *)
Definition name_of (x : option BLEDevice) : M string :=
  match x with
  | Some d => ret (name d)
  | None => raise AttributeError
  end.

End Driver.

Arguments Callback : clear implicits.
Arguments Meter : clear implicits.
Arguments World : clear implicits.
Arguments St : clear implicits.
Arguments M : clear implicits.

Declare Scope meth_scope.
Delimit Scope meth_scope with meth.
Notation "x <- c ;; k" := (bind c (fun x => k))
  (at level 61, c at next level, right associativity) : meth_scope.
Notation "c ;; k" := (bind c (fun _ => k))
  (at level 61, right associativity) : meth_scope.

(** ** The methods *)

Section Methods.

Context {U : Type}.

Local Open Scope meth_scope.

(** The [for d in devices] loop of [find_device] (lines 29-36). *)
Fixpoint find_device_loop (devices : list BLEDevice) : M U (option BLEDevice) :=
  match devices with
  | [] => ret None
  | d :: rest =>
      self <- get_self ;;
      if String.eqb (name d) (dev_name self) then
        put_self (set_device self (Some d)) ;;
        self <- get_self ;;
        ret (device self)
      else
        by_address <-
          match dev_mac_addr self with
          | None => ret false
          | Some mac =>
              a <- address_of (device self) ;;   (* self.device.address *)
              ret (String.eqb (lower a) (lower mac))
          end ;;
        if by_address : bool then
          put_self (set_device self (Some d)) ;;
          self <- get_self ;;
          ret (device self)
        else find_device_loop rest
  end.

(** [find_device] (lines 27-36) *)
Definition find_device : M U (option BLEDevice) :=
  devices <- BleakScanner_discover ;;
  find_device_loop devices.

(** The [while self.device is None] loop of [connect] (lines 40-50).
    [Some b] stands for [return b] from inside the loop, [None] for leaving
    the loop (the condition is false, or [break]). *)
Fixpoint connect_search (fuel : nat) (keep_trying : bool) : M U (option bool) :=
  self <- get_self ;;
  match device self with
  | Some _ => ret None
  | None =>
      match fuel with
      | O => out_of_fuel
      | S fuel' =>
          _ <- find_device ;;
          self <- get_self ;;
          match device self with
          | Some _ =>
              n <- name_of (device self) ;;
              a <- address_of (device self) ;;
              print ("device " ++ dquote ++ n ++ dquote
                       ++ " found, MAC-addr: " ++ a) ;;
              ret None
          | None =>
              write "device not found" ;;
              if keep_trying then
                print ", retrying..." ;;
                connect_search fuel' keep_trying
              else ret (Some false)
          end
      end
  end.

(** [connect] (lines 38-62) *)
Definition connect (fuel : nat) (keep_trying : bool) : M U bool :=
  r <- connect_search fuel keep_trying ;;
  match r with
  | Some b => ret b
  | None =>
      self <- get_self ;;
      a <- address_of (device self) ;;
      put_self (set_client self (Some (mkClient a))) ;;
      self <- get_self ;;
      res <- match client self with
             | Some c => BleakClient_connect c
             | None => raise AttributeError
             end ;;
      if res : bool then
        print "connected" ;;
        BleakClient_start_notify (lower (data_char_uuid self)) ;;
        print "notifications started" ;;
        ret true
      else ret false
  end.

(** The loop [for d in data: s += "%02X " % d] *)
Fixpoint hex_dump (s : string) (data : bytearray) : string :=
  match data with
  | [] => s
  | d :: rest => hex_dump (s ++ fmt_02X_sp (byte_val d)) rest
  end.

(** [handle_data] (from line 64 on) *)
Definition handle_data (sender : Z) (data : bytearray) : M U unit :=
  self <- get_self ;;
  match callback self with
  | None =>
      let s := hex_dump EmptyString data in
      print ("data: " ++ strip s)
  | Some cb =>
      if (List.length data =? 36)%nat then
        r <- lift (parse_packet (cls self) data) ;;
        call cb r
      else ret tt
  end.

(** The link layer calls the registered handler once per notification, in
    the order of arrival; [handle_data] has no suspension point, so each
    call runs to its end before the next one starts. *)
Fixpoint notifications (sender : Z) (frames : list bytearray) : M U unit :=
  match frames with
  | [] => ret tt
  | data :: rest => handle_data sender data ;; notifications sender rest
  end.

End Methods.

(** ** What the specification calls things *)

(** The callback applied to a reading. *)
Definition deliver {U : Type} (cb : Callback U) (r : Reading) (u : U) : U :=
  cb (voltageVolts r) (currentAmps r) (capacityMilliampHours r)
     (energyWattHours r) u.

Definition with_user {U : Type} (w : World U) (u : U) : World U :=
  mkWorld (scan_results w) (scans_done w) (link_ok w) (connect_log w)
          (notify_log w) (stdout w) u.

Definition with_stdout {U : Type} (w : World U) (out : list string) : World U :=
  mkWorld (scan_results w) (scans_done w) (link_ok w) (connect_log w)
          (notify_log w) out (user w).

Definition with_scans_done {U : Type} (w : World U) (n : nat) : World U :=
  mkWorld (scan_results w) n (link_ok w) (connect_log w)
          (notify_log w) (stdout w) (user w).

(** [f[i]] read as a number, 0 beyond the end. *)
Definition byte_at (f : bytearray) (i : nat) : Z := byte_val (nth i f x00).

(** Big-endian value of a list of bytes, most significant first. *)
Definition be_value (bs : list byte) : Z :=
  fold_left (fun acc b => acc * 256 + byte_val b) bs 0.

(** [f[lo..hi)] *)
Definition slice (f : bytearray) (lo hi : nat) : list byte :=
  firstn (hi - lo) (skipn lo f).

(** A consumer that records what it is given, oldest first. *)
Definition recorder : Callback (list Reading) :=
  fun v a mah wh log => (log ++ [mkReading v a mah wh])%list.

(** A world in which nothing has happened yet. *)
Definition quiet_world {U : Type} (scans : nat -> list BLEDevice)
    (link : string -> bool) (u : U) : World U :=
  mkWorld scans 0 link [] [] [] u.


Infix "<<" := Z.shiftl (at level 30, no associativity) : Z_scope.

(** The 13 payload bytes of the two worked examples, indices 4 to 16. *)
Definition scenario_A_payload : list byte :=
  [x00; x00; xc8;  x00; x03; xe8;  x00; x00; x05;  x00; x00; x00; x32].

Definition scenario_B_payload (b4 b7 : byte) : list byte :=
  [b4; x0b; xb8;  b7; x01; xf4;  x00; x00; x64;  x00; x00; x27; x10].

(** What reaches the consumer for one packet: the reading if the packet
    decodes, nothing otherwise. *)
Definition readings_of (c : DeviceVariant) (data : bytearray) : list Reading :=
  match decode c data with
  | Ok (Decoded r) => [r]
  | _ => []
  end.

(** The effect of a decode outcome on the world: a reading goes to the
    callback, a failure leaves everything as it was. *)
Definition apply_outcome {U : Type} (cb : Callback U) (o : DecodeOutcome)
    (w : World U) : World U :=
  match o with
  | Decoded r => with_user w (deliver cb r (user w))
  | DecodeFailure _ => w
  end.

(** Two-digit upper-case hexadecimal of a byte. *)
Definition hex2 (b : byte) : string :=
  String (hex_digit (byte_val b / 16))
         (String (hex_digit (byte_val b mod 16)) EmptyString).

(** The bytes in hexadecimal, separated by single spaces. *)
Fixpoint hex_join (data : bytearray) : string :=
  match data with
  | [] => EmptyString
  | [b] => hex2 b
  | b :: rest => hex2 b ++ " " ++ hex_join rest
  end.

(** ** Concrete packets and objects used in examples *)

Definition frame_A : bytearray :=
  (repeat x00 4 ++ scenario_A_payload ++ repeat x00 19)%list.

Definition frame_B : bytearray :=
  (repeat xff 4 ++ scenario_B_payload x00 x00 ++ repeat xff 19)%list.

(** The same payload as [frame_A] under different surrounding bytes. *)
Definition frame_A' : bytearray :=
  (repeat xff 4 ++ scenario_A_payload ++ repeat x5a 19)%list.

(** [frame_B] with other values at indices 4 and 7 and around the payload. *)
Definition frame_B' : bytearray :=
  (repeat x00 4 ++ scenario_B_payload x11 x22 ++ repeat x00 19)%list.

(** An all-zero packet of 10 bytes. *)
Definition zero10 : bytearray := repeat x00 10.

(** [DL24TestLoad(callback=cb)] and [UD18UsbMeter(callback=cb)] *)
Definition dl24 {U : Type} (cb : option (Callback U)) : Meter U :=
  init CurrentLoadMeter DL24TestLoad.default_dev_name None
       default_data_char_uuid cb.

Definition ud18 {U : Type} (cb : option (Callback U)) : Meter U :=
  init UsbPowerMeter UD18UsbMeter.default_dev_name None
       default_data_char_uuid cb.

(** A world where no device advertises and no link comes up. *)
Definition silent_world {U : Type} (u : U) : World U :=
  quiet_world (fun _ => []) (fun _ => false) u.

(** The object with another callback registered. *)
Definition with_callback {U : Type} (self : Meter U) (cb : option (Callback U))
    : Meter U :=
  mkMeter (cls self) (dev_name self) (data_char_uuid self) (dev_mac_addr self)
          cb (device self) (client self).

(** ** Concrete scans used in examples *)

(** [DL24TestLoad(dev_mac_addr="27:4B:B0:47:69:84")] *)
Definition dl24_by_address : Meter unit :=
  init CurrentLoadMeter DL24TestLoad.default_dev_name
       (Some "27:4B:B0:47:69:84") default_data_char_uuid None.

(** [UD18UsbMeter(dev_mac_addr="AA:BB:CC:DD:EE:FF")] *)
Definition ud18_by_address : Meter unit :=
  init UsbPowerMeter UD18UsbMeter.default_dev_name
       (Some "AA:BB:CC:DD:EE:FF") default_data_char_uuid None.

(** A unit under another name at the configured address. *)
Definition renamed_unit : BLEDevice := mkDevice "Other" "27:4b:b0:47:69:84".

(** A device that matches neither by name nor by address. *)
Definition stranger : BLEDevice := mkDevice "Headset" "11:22:33:44:55:66".

(** The unit under its own name, as an earlier pass would have stored it. *)
Definition held_unit : BLEDevice := mkDevice "DL24_BLE" "27:4B:B0:47:69:84".

(** A world in which every scan sees the same devices. *)
Definition steady_world (devices : list BLEDevice) : World unit :=
  quiet_world (fun _ => devices) (fun _ => true) tt.

(** No device of the scan carries the configured name. *)
Definition no_name_match (self_name : string) (devices : list BLEDevice) : Prop :=
  forall d, In d devices -> name d <> self_name.

(** ** Lines written and worlds reached by [connect] *)

(** The line written when a device has been found (line 43). *)
Definition found_line (d : BLEDevice) : string :=
  ("device " ++ dquote ++ name d ++ dquote ++ " found, MAC-addr: " ++ address d)
  ++ newline.


(** The line written for one packet when no callback is registered. *)
Definition dump_line (data : bytearray) : string :=
  "data: " ++ hex_join data ++ newline.

(** The world after lines 52-62 have run against address [addr]: the
    attempt is logged; if the link came up, the characteristic [uuid] is
    subscribed in lower case and two lines are written. *)
Definition after_link {U : Type} (w : World U) (addr uuid : string) : World U :=
  if link_ok w addr then
    mkWorld (scan_results w) (scans_done w) (link_ok w)
            (connect_log w ++ [addr]) (notify_log w ++ [lower uuid])
            (stdout w ++ ["connected" ++ newline;
                          "notifications started" ++ newline])
            (user w)
  else
    mkWorld (scan_results w) (scans_done w) (link_ok w)
            (connect_log w ++ [addr]) (notify_log w) (stdout w) (user w).

(** The object after line 52 has run with device [d] held. *)
Definition linked_to {U : Type} (self : Meter U) (d : BLEDevice) : Meter U :=
  set_client (set_device self (Some d)) (Some (mkClient (address d))).

(** A world whose [n]-th scan shows [late] and every other scan [early]. *)
Definition world_changing_at (n : nat) (early late : list BLEDevice)
    (link : string -> bool) : World unit :=
  quiet_world (fun i => if (i =? n)%nat then late else early) link tt.


(** * Properties *)

Open Scope list_scope.

(** ** Indexing and field extraction *)

Lemma getitem_in_range (data : bytearray) (i : nat) :
  (i < List.length data)%nat -> getitem data i = Ok (byte_at data i).
Proof.
  intro Hlt. unfold getitem, byte_at.
  destruct (nth_error data i) as [b|] eqn:E.
  - now rewrite (nth_error_nth _ _ x00 E).
  - apply nth_error_None in E. lia.
Qed.

Lemma getitem_out_of_range (data : bytearray) (i : nat) :
  (List.length data <= i)%nat -> getitem data i = Raise IndexError.
Proof.
  intro Hle. unfold getitem.
  now rewrite (proj2 (nth_error_None data i) Hle).
Qed.

Lemma getitem_ext (f g : bytearray) (i : nat) :
  nth_error f i = nth_error g i -> getitem f i = getitem g i.
Proof. unfold getitem. now intros ->. Qed.

Lemma byte_val_range (b : byte) : 0 <= byte_val b < 256.
Proof.
  unfold byte_val. pose proof (Byte.to_N_bounded b) as H.
  lia.
Qed.

Ltac index_all Hlen :=
  repeat (rewrite getitem_in_range by (rewrite Hlen; lia));
  cbn [rbind].

Lemma dl24_parse_packet_36 (f : bytearray) :
  List.length f = 36%nat ->
  DL24TestLoad.parse_packet f =
  Ok (mkReading
        (PrimFloat.div
           (float_of_int ((byte_at f 4 << 16) + (byte_at f 5 << 8) + byte_at f 6))
           10%float)
        (PrimFloat.div
           (float_of_int ((byte_at f 7 << 16) + (byte_at f 8 << 8) + byte_at f 9))
           1000%float)
        (((byte_at f 10 << 16) + (byte_at f 11 << 8) + byte_at f 12) * 10)
        (PyInt (((byte_at f 13 << 24) + (byte_at f 14 << 16)
                 + (byte_at f 15 << 8) + byte_at f 16) * 10))).
Proof.
  intro Hlen. unfold DL24TestLoad.parse_packet.
  index_all Hlen. reflexivity.
Qed.

Lemma ud18_parse_packet_36 (f : bytearray) :
  List.length f = 36%nat ->
  UD18UsbMeter.parse_packet f =
  Ok (mkReading
        (PrimFloat.div
           (float_of_int ((byte_at f 5 << 8) + byte_at f 6)) 100%float)
        (PrimFloat.div
           (float_of_int ((byte_at f 8 << 8) + byte_at f 9)) 100%float)
        ((byte_at f 10 << 16) + (byte_at f 11 << 8) + byte_at f 12)
        (PyFloat
           (PrimFloat.div
              (float_of_int ((byte_at f 13 << 24) + (byte_at f 14 << 16)
                             + (byte_at f 15 << 8) + byte_at f 16))
              100%float))).
Proof.
  intro Hlen. unfold UD18UsbMeter.parse_packet.
  index_all Hlen. reflexivity.
Qed.

Lemma parse_packet_total (c : DeviceVariant) (f : bytearray) :
  List.length f = 36%nat -> exists r, parse_packet c f = Ok r.
Proof.
  intro Hlen. destruct c; cbn [parse_packet].
  - rewrite dl24_parse_packet_36 by exact Hlen. eauto.
  - rewrite ud18_parse_packet_36 by exact Hlen. eauto.
Qed.

Lemma decode_36 (c : DeviceVariant) (f : bytearray) :
  List.length f = 36%nat ->
  decode c f = rbind (parse_packet c f) (fun r => Ok (Decoded r)).
Proof. intro Hlen. unfold decode. now rewrite Hlen. Qed.

Lemma decode_not_36 (c : DeviceVariant) (f : bytearray) :
  List.length f <> 36%nat -> decode c f = Ok (DecodeFailure WrongLength).
Proof.
  intro Hlen. unfold decode.
  now rewrite (proj2 (Nat.eqb_neq _ _) Hlen).
Qed.

Lemma decode_total (c : DeviceVariant) (f : bytearray) :
  exists o, decode c f = Ok o.
Proof.
  destruct (Nat.eq_dec (List.length f) 36) as [Hlen|Hlen].
  - destruct (parse_packet_total c f Hlen) as [r Hr].
    exists (Decoded r). now rewrite decode_36, Hr.
  - exists (DecodeFailure WrongLength). now apply decode_not_36.
Qed.

(** ** The handler in terms of [decode] *)

Lemma handle_data_decode {U : Type} (self : Meter U) (cb : Callback U)
    (w : World U) (sender : Z) (data : bytearray) (o : DecodeOutcome) :
  callback self = Some cb ->
  decode (cls self) data = Ok o ->
  handle_data sender data (self, w) = Ok (tt, (self, apply_outcome cb o w)).
Proof.
  intros Hcb Hdec.
  unfold handle_data, bind, get_self. cbn [fst snd]. rewrite Hcb.
  unfold decode in Hdec.
  destruct (List.length data =? 36)%nat.
  - destruct (parse_packet (cls self) data) as [r| |]; cbn in Hdec; try discriminate.
    injection Hdec as <-. reflexivity.
  - injection Hdec as <-. reflexivity.
Qed.

(** ** The fields are big-endian unsigned numbers *)

Lemma be_value_snoc (bs : list byte) (b : byte) :
  be_value (bs ++ [b]) = be_value bs * 256 + byte_val b.
Proof. unfold be_value. now rewrite fold_left_app. Qed.

Lemma be_value_bounded (bs : list byte) :
  0 <= be_value bs < 256 ^ Z.of_nat (List.length bs).
Proof.
  induction bs as [|b bs IH] using rev_ind; [cbn; lia|].
  rewrite be_value_snoc, length_app, Nat2Z.inj_add, Z.pow_add_r by lia.
  cbn [List.length]. change (256 ^ Z.of_nat 1) with 256.
  pose proof (byte_val_range b). nia.
Qed.

Lemma shifted_fields_are_big_endian (f : bytearray) :
  List.length f = 36%nat ->
  (byte_at f 4 << 16) + (byte_at f 5 << 8) + byte_at f 6
    = be_value (slice f 4 7)
  /\ (byte_at f 7 << 16) + (byte_at f 8 << 8) + byte_at f 9
    = be_value (slice f 7 10)
  /\ (byte_at f 10 << 16) + (byte_at f 11 << 8) + byte_at f 12
    = be_value (slice f 10 13)
  /\ (byte_at f 13 << 24) + (byte_at f 14 << 16) + (byte_at f 15 << 8)
      + byte_at f 16
    = be_value (slice f 13 17)
  /\ (byte_at f 5 << 8) + byte_at f 6 = be_value (slice f 5 7)
  /\ (byte_at f 8 << 8) + byte_at f 9 = be_value (slice f 8 10).
Proof.
  intro Hlen.
  do 17 (destruct f as [|? f]; [discriminate|]).
  unfold byte_at, slice, be_value. cbn [nth skipn firstn Nat.sub fold_left].
  rewrite !Z.shiftl_mul_pow2 by lia.
  repeat split; lia.
Qed.

(** Every integer the drivers turn into a float is below [2^32], so the
    conversion is exact. *)
Lemma converted_integers_are_small (f : bytearray) :
  List.length f = 36%nat ->
  0 <= (byte_at f 4 << 16) + (byte_at f 5 << 8) + byte_at f 6 < 2 ^ 24
  /\ 0 <= (byte_at f 7 << 16) + (byte_at f 8 << 8) + byte_at f 9 < 2 ^ 24
  /\ 0 <= (byte_at f 13 << 24) + (byte_at f 14 << 16) + (byte_at f 15 << 8)
          + byte_at f 16 < 2 ^ 32.
Proof.
  intro Hlen.
  destruct (shifted_fields_are_big_endian f Hlen) as (-> & -> & _ & -> & _).
  assert (Hsl : forall lo hi, (lo <= hi <= 36)%nat ->
                  List.length (slice f lo hi) = (hi - lo)%nat).
  { intros lo hi H. unfold slice. rewrite length_firstn, length_skipn. lia. }
  pose proof (be_value_bounded (slice f 4 7)) as H1.
  pose proof (be_value_bounded (slice f 7 10)) as H2.
  pose proof (be_value_bounded (slice f 13 17)) as H3.
  rewrite Hsl in H1, H2, H3 by lia.
  change (256 ^ Z.of_nat (7 - 4)) with (2 ^ 24) in H1.
  change (256 ^ Z.of_nat (10 - 7)) with (2 ^ 24) in H2.
  change (256 ^ Z.of_nat (17 - 13)) with (2 ^ 32) in H3.
  auto.
Qed.

(** ** Decoding of well-formed packets *)

Lemma decode_scenario_A (pre post : list byte) :
  List.length pre = 4%nat -> List.length post = 19%nat ->
  decode CurrentLoadMeter (pre ++ scenario_A_payload ++ post) =
  Ok (Decoded (mkReading 20%float 1%float 50 (PyInt 500))).
Proof.
  intros Hpre Hpost.
  destruct pre as [|p0 [|p1 [|p2 [|p3 [|]]]]]; try discriminate.
  unfold decode, scenario_A_payload.
  cbn [app List.length]. rewrite Hpost. cbn [Nat.eqb].
  reflexivity.
Qed.

Lemma decode_scenario_B (pre post : list byte) (b4 b7 : byte) :
  List.length pre = 4%nat -> List.length post = 19%nat ->
  decode UsbPowerMeter (pre ++ scenario_B_payload b4 b7 ++ post) =
  Ok (Decoded (mkReading 30%float 5%float 100 (PyFloat 100%float))).
Proof.
  intros Hpre Hpost.
  destruct pre as [|p0 [|p1 [|p2 [|p3 [|]]]]]; try discriminate.
  unfold decode, scenario_B_payload.
  cbn [app List.length]. rewrite Hpost. cbn [Nat.eqb].
  reflexivity.
Qed.

(** C1. Every 36-byte packet decodes, for the DL24 test load, to the reading
    with voltage [((f[4]<<16)+(f[5]<<8)+f[6])/10.0], current
    [((f[7]<<16)+(f[8]<<8)+f[9])/1000.0], capacity
    [((f[10]<<16)+(f[11]<<8)+f[12])*10] and energy
    [((f[13]<<24)+(f[14]<<16)+(f[15]<<8)+f[16])*10]; a handler with a callback
    hands exactly this reading to it; and every 36-byte packet whose bytes 4
    to 16 are those of Scenario A decodes to 20.0 V, 1.0 A, 50 mAh, 500 Wh. *)
Theorem dl24_decode_fields (f : bytearray) :
  List.length f = 36%nat ->
  (exists r,
      decode CurrentLoadMeter f = Ok (Decoded r)
      /\ voltageVolts r =
         PrimFloat.div
           (float_of_int ((byte_at f 4 << 16) + (byte_at f 5 << 8) + byte_at f 6))
           10%float
      /\ currentAmps r =
         PrimFloat.div
           (float_of_int ((byte_at f 7 << 16) + (byte_at f 8 << 8) + byte_at f 9))
           1000%float
      /\ capacityMilliampHours r =
         ((byte_at f 10 << 16) + (byte_at f 11 << 8) + byte_at f 12) * 10
      /\ energyWattHours r =
         PyInt (((byte_at f 13 << 24) + (byte_at f 14 << 16)
                 + (byte_at f 15 << 8) + byte_at f 16) * 10)
      /\ forall (U : Type) (self : Meter U) (cb : Callback U) (w : World U)
                (sender : Z),
           cls self = CurrentLoadMeter -> callback self = Some cb ->
           handle_data sender f (self, w) =
           Ok (tt, (self, with_user w (deliver cb r (user w)))))
  /\ (forall pre post : list byte,
         List.length pre = 4%nat -> List.length post = 19%nat ->
         List.length (pre ++ scenario_A_payload ++ post) = 36%nat
         /\ decode CurrentLoadMeter (pre ++ scenario_A_payload ++ post) =
            Ok (Decoded (mkReading 20%float 1%float 50 (PyInt 500)))).
Proof.
  intro Hlen. split.
  - eexists. split.
    + rewrite decode_36 by exact Hlen. cbn [parse_packet].
      rewrite dl24_parse_packet_36 by exact Hlen. reflexivity.
    + repeat (split; [reflexivity|]).
      intros U self cb w sender Hcls Hcb.
      apply (handle_data_decode self cb w sender f (Decoded _) Hcb).
      rewrite Hcls, decode_36 by exact Hlen. cbn [parse_packet].
      rewrite dl24_parse_packet_36 by exact Hlen. reflexivity.
  - intros pre post Hpre Hpost. split.
    + rewrite !length_app, Hpre, Hpost. reflexivity.
    + now apply decode_scenario_A.
Qed.

(** C2. Every 36-byte packet decodes, for the UD18 USB meter, to the reading
    with voltage [((f[5]<<8)+f[6])/100.0], current [((f[8]<<8)+f[9])/100.0],
    capacity [(f[10]<<16)+(f[11]<<8)+f[12]] and energy
    [((f[13]<<24)+(f[14]<<16)+(f[15]<<8)+f[16])/100.0]; a handler with a
    callback hands exactly this reading to it; and every 36-byte packet with
    the Scenario B bytes decodes to 30.0 V, 5.0 A, 100 mAh, 100.0 Wh. *)
Theorem ud18_decode_fields (f : bytearray) :
  List.length f = 36%nat ->
  (exists r,
      decode UsbPowerMeter f = Ok (Decoded r)
      /\ voltageVolts r =
         PrimFloat.div
           (float_of_int ((byte_at f 5 << 8) + byte_at f 6)) 100%float
      /\ currentAmps r =
         PrimFloat.div
           (float_of_int ((byte_at f 8 << 8) + byte_at f 9)) 100%float
      /\ capacityMilliampHours r =
         (byte_at f 10 << 16) + (byte_at f 11 << 8) + byte_at f 12
      /\ energyWattHours r =
         PyFloat
           (PrimFloat.div
              (float_of_int ((byte_at f 13 << 24) + (byte_at f 14 << 16)
                             + (byte_at f 15 << 8) + byte_at f 16))
              100%float)
      /\ forall (U : Type) (self : Meter U) (cb : Callback U) (w : World U)
                (sender : Z),
           cls self = UsbPowerMeter -> callback self = Some cb ->
           handle_data sender f (self, w) =
           Ok (tt, (self, with_user w (deliver cb r (user w)))))
  /\ (forall (pre post : list byte) (b4 b7 : byte),
         List.length pre = 4%nat -> List.length post = 19%nat ->
         List.length (pre ++ scenario_B_payload b4 b7 ++ post) = 36%nat
         /\ decode UsbPowerMeter (pre ++ scenario_B_payload b4 b7 ++ post) =
            Ok (Decoded (mkReading 30%float 5%float 100 (PyFloat 100%float)))).
Proof.
  intro Hlen. split.
  - eexists. split.
    + rewrite decode_36 by exact Hlen. cbn [parse_packet].
      rewrite ud18_parse_packet_36 by exact Hlen. reflexivity.
    + repeat (split; [reflexivity|]).
      intros U self cb w sender Hcls Hcb.
      apply (handle_data_decode self cb w sender f (Decoded _) Hcb).
      rewrite Hcls, decode_36 by exact Hlen. cbn [parse_packet].
      rewrite ud18_parse_packet_36 by exact Hlen. reflexivity.
  - intros pre post b4 b7 Hpre Hpost. split.
    + rewrite !length_app, Hpre, Hpost. reflexivity.
    + now apply decode_scenario_B.
Qed.

Lemma dl24_decode_fields_witness :
  List.length frame_A = 36%nat
  /\ decode CurrentLoadMeter frame_A =
     Ok (Decoded (mkReading 20%float 1%float 50 (PyInt 500))).
Proof.
  split; [reflexivity|].
  destruct (dl24_decode_fields frame_A eq_refl) as [_ Hscen].
  apply (Hscen (repeat x00 4) (repeat x00 19)); reflexivity.
Defined.

Lemma ud18_decode_fields_witness :
  List.length frame_B = 36%nat
  /\ decode UsbPowerMeter frame_B =
     Ok (Decoded (mkReading 30%float 5%float 100 (PyFloat 100%float))).
Proof.
  split; [reflexivity|].
  destruct (ud18_decode_fields frame_B eq_refl) as [_ Hscen].
  apply (Hscen (repeat xff 4) (repeat xff 19) x00 x00); reflexivity.
Defined.

(** ** Packets of the wrong length *)

(** C3. A packet whose length is not 36 is a WrongLength failure in both
    classes and never a reading; a handler with a callback returns normally
    on it with the object, the consumer's state and standard output all
    unchanged: the callback is not called and nothing is raised. *)
Theorem wrong_length_is_discarded (c : DeviceVariant) (f : bytearray) :
  List.length f <> 36%nat ->
  decode c f = Ok (DecodeFailure WrongLength)
  /\ (forall r, decode c f <> Ok (Decoded r))
  /\ readings_of c f = []
  /\ forall (U : Type) (self : Meter U) (cb : Callback U) (w : World U)
            (sender : Z),
       callback self = Some cb ->
       handle_data sender f (self, w) = Ok (tt, (self, w)).
Proof.
  intro Hlen. pose proof (decode_not_36 c f Hlen) as Hdec.
  repeat split.
  - exact Hdec.
  - intros r Hr. rewrite Hdec in Hr. discriminate.
  - unfold readings_of. now rewrite Hdec.
  - intros U self cb w sender Hcb.
    apply (handle_data_decode self cb w sender f
             (DecodeFailure WrongLength) Hcb).
    now apply decode_not_36.
Qed.

Lemma wrong_length_is_discarded_witness :
  List.length zero10 <> 36%nat
  /\ decode UsbPowerMeter zero10 = Ok (DecodeFailure WrongLength)
  /\ handle_data 0 zero10 (dl24 (Some recorder), silent_world []) =
     Ok (tt, (dl24 (Some recorder), silent_world [])).
Proof.
  assert (Hlen : List.length zero10 <> 36%nat) by (cbn; lia).
  split; [exact Hlen|]. split.
  - destruct (wrong_length_is_discarded UsbPowerMeter zero10 Hlen) as [H _].
    exact H.
  - destruct (wrong_length_is_discarded CurrentLoadMeter zero10 Hlen)
      as (_ & _ & _ & H).
    apply (H _ _ recorder). reflexivity.
Defined.

(** ** Delivery of a sequence of notifications *)

Lemma readings_of_36 (c : DeviceVariant) (f : bytearray) :
  List.length f = 36%nat -> exists r, readings_of c f = [r] /\ decode c f = Ok (Decoded r).
Proof.
  intro Hlen. destruct (parse_packet_total c f Hlen) as [r Hr].
  exists r. unfold readings_of. rewrite decode_36, Hr by exact Hlen.
  split; reflexivity.
Qed.

Lemma readings_of_length (c : DeviceVariant) (f : bytearray) :
  List.length (readings_of c f) =
  if (List.length f =? 36)%nat then 1%nat else 0%nat.
Proof.
  destruct (Nat.eqb_spec (List.length f) 36) as [Hlen|Hlen].
  - destruct (readings_of_36 c f Hlen) as [r [-> _]]. reflexivity.
  - unfold readings_of. now rewrite decode_not_36.
Qed.

Lemma apply_outcome_readings {U : Type} (cb : Callback U) (c : DeviceVariant)
    (f : bytearray) (o : DecodeOutcome) (w : World U) :
  decode c f = Ok o ->
  apply_outcome cb o w =
  with_user w (fold_left (fun u r => deliver cb r u) (readings_of c f) (user w)).
Proof.
  intro Hdec. unfold readings_of. rewrite Hdec.
  destruct o; cbn; [reflexivity | now destruct w].
Qed.

Lemma notifications_fold {U : Type} (self : Meter U) (cb : Callback U)
    (sender : Z) (frames : list bytearray) :
  callback self = Some cb ->
  forall w : World U,
    notifications sender frames (self, w) =
    Ok (tt, (self,
             with_user w
               (fold_left (fun u r => deliver cb r u)
                          (flat_map (readings_of (cls self)) frames)
                          (user w)))).
Proof.
  intro Hcb. induction frames as [|f frames IH]; intro w.
  - cbn. now destruct w.
  - cbn [notifications flat_map]. unfold bind at 1.
    destruct (decode_total (cls self) f) as [o Ho].
    rewrite (handle_data_decode self cb w sender f o Hcb Ho).
    rewrite IH, fold_left_app.
    rewrite (apply_outcome_readings cb (cls self) f o w Ho).
    reflexivity.
Qed.

(** C7. For every finite sequence of packets delivered to a handler with a
    callback, the run ends normally, the object is unchanged, and the
    consumer's state is what results from applying the callback to the
    decoded readings of the packets, one after the other in arrival order;
    a packet contributes exactly one reading if it is 36 bytes long and none
    otherwise; so a recording consumer ends with exactly the readings of the
    36-byte packets, in order, behind what it had before. *)
Theorem notifications_deliver_in_order {U : Type} (self : Meter U)
    (cb : Callback U) (sender : Z) (frames : list bytearray) (w : World U) :
  callback self = Some cb ->
  notifications sender frames (self, w) =
    Ok (tt, (self,
             with_user w
               (fold_left (fun u r => deliver cb r u)
                          (flat_map (readings_of (cls self)) frames)
                          (user w))))
  /\ (forall f, List.length (readings_of (cls self) f) =
                if (List.length f =? 36)%nat then 1%nat else 0%nat)
  /\ flat_map (readings_of (cls self)) frames =
     flat_map (readings_of (cls self))
              (filter (fun f => (List.length f =? 36)%nat) frames)
  /\ forall (me : Meter (list Reading)) (w0 : World (list Reading)),
       callback me = Some recorder -> cls me = cls self ->
       notifications sender frames (me, w0) =
       Ok (tt, (me, with_user w0
                      (user w0 ++ flat_map (readings_of (cls self)) frames))).
Proof.
  intro Hcb. split; [|split; [|split]].
  - now apply notifications_fold.
  - intro f. apply readings_of_length.
  - induction frames as [|f frames IH]; [reflexivity|].
    cbn [flat_map filter].
    destruct (Nat.eqb_spec (List.length f) 36) as [Hlen|Hlen].
    + cbn [flat_map]. now rewrite IH.
    + unfold readings_of at 1. rewrite decode_not_36 by exact Hlen.
      exact IH.
  - intros me w0 Hrec Hcls.
    rewrite (notifications_fold me recorder sender frames Hrec w0), Hcls.
    do 3 f_equal.
    generalize (flat_map (readings_of (cls self)) frames) as rs.
    generalize (user w0) as log.
    intros log rs. revert log.
    induction rs as [|r rs IH]; intro log; cbn [fold_left].
    + now rewrite app_nil_r.
    + rewrite IH. unfold deliver, recorder. destruct r; cbn.
      now rewrite <- app_assoc.
Qed.

Lemma notifications_deliver_in_order_witness :
  callback (dl24 (Some recorder)) = Some recorder
  /\ notifications 0 [zero10; frame_A; []; frame_A'; zero10]
       (dl24 (Some recorder), silent_world []) =
     Ok (tt, (dl24 (Some recorder),
              silent_world [mkReading 20%float 1%float 50 (PyInt 500);
                            mkReading 20%float 1%float 50 (PyInt 500)])).
Proof.
  split; [reflexivity|].
  destruct (notifications_deliver_in_order (dl24 (Some recorder)) recorder 0
              [zero10; frame_A; []; frame_A'; zero10] (silent_world [])
              eq_refl) as [Hrun _].
  rewrite Hrun. reflexivity.
Defined.

(** ** Purity of decoding *)

(** C8. Decoding always returns an outcome, and that outcome is determined by
    the class and the bytes alone: two handlers of the same class, whatever
    their other attributes, their callbacks and the worlds they run in, act
    on the same packet through one and the same outcome; the handler leaves
    the object as it was and touches the world only by calling the
    callback. *)
Theorem decode_is_pure (c : DeviceVariant) (data1 data2 : bytearray) :
  data1 = data2 ->
  decode c data1 = decode c data2
  /\ exists o,
       decode c data1 = Ok o
       /\ forall (U1 U2 : Type) (self1 : Meter U1) (self2 : Meter U2)
                 (cb1 : Callback U1) (cb2 : Callback U2)
                 (w1 : World U1) (w2 : World U2) (sender1 sender2 : Z),
            cls self1 = c -> cls self2 = c ->
            callback self1 = Some cb1 -> callback self2 = Some cb2 ->
            handle_data sender1 data1 (self1, w1) =
              Ok (tt, (self1, apply_outcome cb1 o w1))
            /\ handle_data sender2 data2 (self2, w2) =
              Ok (tt, (self2, apply_outcome cb2 o w2)).
Proof.
  intros <-. split; [reflexivity|].
  destruct (decode_total c data1) as [o Ho]. exists o.
  split; [exact Ho|].
  intros U1 U2 self1 self2 cb1 cb2 w1 w2 sender1 sender2 Hc1 Hc2 Hcb1 Hcb2.
  split; apply handle_data_decode; congruence.
Qed.

Lemma decode_is_pure_witness :
  frame_B = frame_B
  /\ handle_data 1 frame_B (ud18 (Some recorder), silent_world []) =
     Ok (tt, (ud18 (Some recorder),
              silent_world [mkReading 30%float 5%float 100 (PyFloat 100%float)])).
Proof.
  split; [reflexivity|].
  destruct (decode_is_pure UsbPowerMeter frame_B frame_B eq_refl)
    as [_ [o [Ho Hrun]]].
  destruct (Hrun _ _ (ud18 (Some recorder)) (ud18 (Some recorder))
                 recorder recorder (silent_world []) (silent_world []) 1 2
                 eq_refl eq_refl eq_refl eq_refl) as [H1 _].
  rewrite H1.
  assert (Ho' : Ok o = Ok (Decoded (mkReading 30%float 5%float 100
                                      (PyFloat 100%float))))
    by (rewrite <- Ho; reflexivity).
  injection Ho' as ->. reflexivity.
Defined.

(** ** Which bytes matter *)

Lemma dl24_parse_packet_ext (f g : bytearray) :
  (forall i, (4 <= i <= 16)%nat -> nth_error f i = nth_error g i) ->
  DL24TestLoad.parse_packet f = DL24TestLoad.parse_packet g.
Proof.
  intro H. unfold DL24TestLoad.parse_packet.
  rewrite (getitem_ext f g 4), (getitem_ext f g 5), (getitem_ext f g 6),
    (getitem_ext f g 7), (getitem_ext f g 8), (getitem_ext f g 9),
    (getitem_ext f g 10), (getitem_ext f g 11), (getitem_ext f g 12),
    (getitem_ext f g 13), (getitem_ext f g 14), (getitem_ext f g 15),
    (getitem_ext f g 16) by (apply H; lia).
  reflexivity.
Qed.

Lemma ud18_parse_packet_ext (f g : bytearray) :
  (forall i, (5 <= i <= 16)%nat -> i <> 7%nat ->
             nth_error f i = nth_error g i) ->
  UD18UsbMeter.parse_packet f = UD18UsbMeter.parse_packet g.
Proof.
  intro H. unfold UD18UsbMeter.parse_packet.
  rewrite (getitem_ext f g 5), (getitem_ext f g 6),
    (getitem_ext f g 8), (getitem_ext f g 9),
    (getitem_ext f g 10), (getitem_ext f g 11), (getitem_ext f g 12),
    (getitem_ext f g 13), (getitem_ext f g 14), (getitem_ext f g 15),
    (getitem_ext f g 16) by (apply H; lia).
  reflexivity.
Qed.

(** C9. Two 36-byte packets that agree at indices 4 to 16 decode, in either
    class, to the same reading; for the UD18 USB meter agreement at indices
    5, 6 and 8 to 16 is enough, so bytes 4 and 7 do not matter either. *)
Theorem decode_depends_on_payload_only (f g : bytearray) :
  List.length f = 36%nat -> List.length g = 36%nat ->
  (forall c : DeviceVariant,
      (forall i, (4 <= i <= 16)%nat -> nth_error f i = nth_error g i) ->
      exists r, decode c f = Ok (Decoded r) /\ decode c g = Ok (Decoded r))
  /\ ((forall i, (5 <= i <= 16)%nat -> i <> 7%nat ->
                 nth_error f i = nth_error g i) ->
      exists r, decode UsbPowerMeter f = Ok (Decoded r)
                /\ decode UsbPowerMeter g = Ok (Decoded r)).
Proof.
  intros Hf Hg. split.
  - intros c H.
    destruct (parse_packet_total c f Hf) as [r Hr]. exists r.
    rewrite !decode_36 by assumption.
    assert (Heq : parse_packet c g = parse_packet c f).
    { destruct c; cbn [parse_packet]; symmetry.
      - now apply dl24_parse_packet_ext.
      - apply ud18_parse_packet_ext. intros i Hi _. apply H. lia. }
    rewrite Heq, Hr. split; reflexivity.
  - intro H.
    destruct (parse_packet_total UsbPowerMeter f Hf) as [r Hr]. exists r.
    rewrite !decode_36 by assumption. cbn [parse_packet] in *.
    rewrite <- (ud18_parse_packet_ext f g H), Hr. split; reflexivity.
Qed.

(* Settles a statement about the list indices up to 16 case by case. *)
Ltac upto_16 i :=
  do 17 (destruct i as [|i]; [first [lia | reflexivity | congruence]|]); lia.

Lemma decode_depends_on_payload_only_witness :
  List.length frame_A = 36%nat /\ List.length frame_A' = 36%nat
  /\ List.length frame_B = 36%nat /\ List.length frame_B' = 36%nat
  /\ decode CurrentLoadMeter frame_A = decode CurrentLoadMeter frame_A'
  /\ decode UsbPowerMeter frame_B = decode UsbPowerMeter frame_B'.
Proof.
  do 4 (split; [reflexivity|]). split.
  - destruct (decode_depends_on_payload_only frame_A frame_A' eq_refl eq_refl)
      as [H _].
    destruct (H CurrentLoadMeter) as [r [-> ->]]; [|reflexivity].
    intros i Hi. upto_16 i.
  - destruct (decode_depends_on_payload_only frame_B frame_B' eq_refl eq_refl)
      as [_ H].
    destruct H as [r [-> ->]]; [|reflexivity].
    intros i Hi Hi7. upto_16 i.
Defined.

(** ** The raw dump *)

Lemma string_app_assoc (a b c : string) :
  ((a ++ b) ++ c = a ++ (b ++ c))%string.
Proof. induction a as [|x a IH]; cbn; [reflexivity | now rewrite IH]. Qed.

Lemma string_app_empty_r (a : string) : (a ++ EmptyString)%string = a.
Proof. induction a as [|x a IH]; cbn; [reflexivity | now rewrite IH]. Qed.

Lemma hex_dump_acc (s : string) (data : bytearray) :
  hex_dump s data = (s ++ hex_dump EmptyString data)%string.
Proof.
  revert s. induction data as [|d rest IH]; intro s; cbn [hex_dump].
  - now rewrite string_app_empty_r.
  - rewrite IH, (IH (EmptyString ++ _)%string). cbn [append].
    now rewrite string_app_assoc.
Qed.

Lemma hex_digits_not_space (b : byte) :
  is_space (hex_digit (byte_val b / 16)) = false
  /\ is_space (hex_digit (byte_val b mod 16)) = false.
Proof. destruct b; split; reflexivity. Qed.

Lemma rstrip_cons (c : ascii) (s : string) :
  rstrip s <> EmptyString -> rstrip (String c s) = String c (rstrip s).
Proof.
  intro Hne. cbn [rstrip]. destruct (rstrip s); [congruence | reflexivity].
Qed.

Lemma hex_join_cons (b : byte) (rest : bytearray) :
  exists c s, hex_join (b :: rest) = String c s.
Proof. destruct rest; cbn [hex_join]; unfold hex2; cbn [append]; eauto. Qed.

Lemma rstrip_hex_dump (data : bytearray) :
  rstrip (hex_dump EmptyString data) = hex_join data.
Proof.
  induction data as [|d rest IH]; [reflexivity|].
  cbn [hex_dump]. rewrite hex_dump_acc. cbn [append fmt_02X_sp].
  destruct (hex_digits_not_space d) as [Hhi Hlo].
  destruct rest as [|d' rest'].
  - cbn [hex_dump rstrip hex_join hex2]. cbn. rewrite Hlo. reflexivity.
  - destruct (hex_join_cons d' rest') as (c & s & Hj).
    assert (Hne : rstrip (hex_dump EmptyString (d' :: rest')) <> EmptyString)
      by (rewrite IH, Hj; discriminate).
    assert (Hsp : rstrip (String " " (hex_dump EmptyString (d' :: rest')))
                  <> EmptyString)
      by (rewrite rstrip_cons by exact Hne; discriminate).
    rewrite rstrip_cons.
    + rewrite rstrip_cons.
      * rewrite rstrip_cons by exact Hne. rewrite IH. reflexivity.
      * exact Hsp.
    + rewrite rstrip_cons by exact Hsp. discriminate.
Qed.

Lemma lstrip_hex_dump (data : bytearray) :
  lstrip (hex_dump EmptyString data) = hex_dump EmptyString data.
Proof.
  destruct data as [|d rest]; [reflexivity|].
  cbn [hex_dump]. rewrite hex_dump_acc. cbn [append fmt_02X_sp lstrip].
  destruct (hex_digits_not_space d) as [-> _]. reflexivity.
Qed.

Lemma strip_hex_dump (data : bytearray) :
  strip (hex_dump EmptyString data) = hex_join data.
Proof. unfold strip. now rewrite lstrip_hex_dump, rstrip_hex_dump. Qed.

(** C10. A handler without a callback, on a packet of any length, returns
    normally having written one line, ["data: "] followed by the bytes in
    two-digit upper-case hexadecimal separated by spaces; nothing is decoded
    and the consumer's state is untouched.  The same object with a callback
    registered drops a packet whose length is not 36 without any output: the
    length test exists only on that path. *)
Theorem raw_dump_when_no_callback {U : Type} (self : Meter U) (w : World U)
    (sender : Z) (data : bytearray) :
  callback self = None ->
  handle_data sender data (self, w) =
    Ok (tt, (self,
             with_stdout w
               (stdout w ++ [("data: " ++ hex_join data ++ newline)%string])))
  /\ (forall w', handle_data sender data (self, w) = Ok (tt, (self, w')) ->
                 user w' = user w)
  /\ forall cb : Callback U,
       List.length data <> 36%nat ->
       handle_data sender data (with_callback self (Some cb), w) =
       Ok (tt, (with_callback self (Some cb), w)).
Proof.
  intro Hcb.
  assert (Hrun : handle_data sender data (self, w) =
                 Ok (tt, (self,
                          with_stdout w
                            (stdout w
                             ++ [("data: " ++ hex_join data ++ newline)%string])))).
  { unfold handle_data, bind, get_self. cbn [fst snd]. rewrite Hcb.
    rewrite strip_hex_dump. unfold print, write, modify_world, with_stdout.
    cbn [fst snd]. now rewrite string_app_assoc. }
  split; [exact Hrun|]. split.
  - intros w' Hw'. rewrite Hrun in Hw'. injection Hw' as <-. reflexivity.
  - intros cb Hlen.
    apply (handle_data_decode (with_callback self (Some cb)) cb w sender data
             (DecodeFailure WrongLength) eq_refl).
    now apply decode_not_36.
Qed.

Lemma raw_dump_when_no_callback_witness :
  callback (dl24 (U := list Reading) None) = None
  /\ handle_data 0 zero10 (dl24 None, silent_world ([] : list Reading)) =
     Ok (tt, (dl24 None,
              with_stdout (silent_world [])
                [("data: 00 00 00 00 00 00 00 00 00 00" ++ newline)%string]))
  /\ handle_data 0 frame_A (dl24 None, silent_world ([] : list Reading)) =
     Ok (tt, (dl24 None,
              with_stdout (silent_world [])
                [("data: 00 00 00 00 00 00 C8 00 03 E8 00 00 05 00 00 00 32 "
                  ++ "00 00 00 00 00 00 00 00 00 00 00 00 00 00 00 00 00 00 00"
                  ++ newline)%string])).
Proof.
  split; [reflexivity|]. split.
  - destruct (raw_dump_when_no_callback (dl24 None)
                (silent_world ([] : list Reading)) 0 zero10
                eq_refl) as [H _].
    rewrite H. reflexivity.
  - destruct (raw_dump_when_no_callback (dl24 None)
                (silent_world ([] : list Reading)) 0 frame_A
                eq_refl) as [H _].
    rewrite H. reflexivity.
Defined.


(** ** Locating the device *)

Lemma find_device_unfold {U : Type} (self : Meter U) (w : World U) :
  find_device (self, w) =
  find_device_loop (scan_results w (scans_done w))
                   (self, with_scans_done w (S (scans_done w))).
Proof. reflexivity. Qed.

(** A pass that returns [None] has changed nothing. *)
Lemma find_device_loop_None {U : Type} (devices : list BLEDevice) :
  forall st st' : St U,
    find_device_loop devices st = Ok (None, st') -> st' = st.
Proof.
  induction devices as [|d rest IH]; intros [self w] st' H.
  - cbn in H. now injection H as <-.
  - cbn [find_device_loop] in H. unfold bind, get_self in H. cbn [fst snd] in H.
    destruct (String.eqb (name d) (dev_name self)).
    + cbn in H. discriminate.
    + destruct (dev_mac_addr self) as [mac|].
      * destruct (device self) as [cur|]; cbn in H; [|discriminate].
        destruct (String.eqb (lower (address cur)) (lower mac)).
        -- cbn in H. discriminate.
        -- now apply IH.
      * cbn in H. now apply IH.
Qed.

(** Without a configured address the pass is a search by name. *)
Lemma find_device_loop_by_name {U : Type} (devices : list BLEDevice)
    (self : Meter U) (w : World U) :
  dev_mac_addr self = None ->
  find_device_loop devices (self, w) =
  match find (fun d => String.eqb (name d) (dev_name self)) devices with
  | Some d => Ok (Some d, (set_device self (Some d), w))
  | None => Ok (None, (self, w))
  end.
Proof.
  intro Hmac. induction devices as [|d rest IH]; [reflexivity|].
  cbn [find_device_loop find]. unfold bind at 1, get_self. cbn [fst snd].
  destruct (String.eqb (name d) (dev_name self)); [reflexivity|].
  rewrite Hmac. unfold bind at 1, ret at 1. exact IH.
Qed.

Lemma find_none_no_name_match (self_name : string) (devices : list BLEDevice) :
  no_name_match self_name devices ->
  find (fun d => String.eqb (name d) self_name) devices = None.
Proof.
  intro H. induction devices as [|d rest IH]; [reflexivity|].
  cbn [find].
  destruct (String.eqb_spec (name d) self_name) as [Heq|_].
  - exfalso. apply (H d); [now left | exact Heq].
  - apply IH. intros d' Hin. apply H. now right.
Qed.

(** An empty scan is "not found", whatever is configured. *)
Lemma find_device_empty_scan {U : Type} (self : Meter U) (w : World U) :
  scan_results w (scans_done w) = [] ->
  find_device (self, w) =
  Ok (None, (self, with_scans_done w (S (scans_done w)))).
Proof. intro H. rewrite find_device_unfold, H. reflexivity. Qed.

(** With no address configured, a scan without the name is "not found". *)
Lemma find_device_name_only_not_found {U : Type} (self : Meter U) (w : World U) :
  dev_mac_addr self = None ->
  no_name_match (dev_name self) (scan_results w (scans_done w)) ->
  find_device (self, w) =
  Ok (None, (self, with_scans_done w (S (scans_done w)))).
Proof.
  intros Hmac Hno. rewrite find_device_unfold.
  rewrite find_device_loop_by_name by exact Hmac.
  now rewrite find_none_no_name_match.
Qed.

(** With an address configured and no device held yet, the first device of
    a scan that does not carry the name stops the pass with an
    AttributeError: line 33 reads [self.device.address], and [self.device]
    is [None]. *)
Lemma find_device_faults {U : Type} (self : Meter U) (w : World U)
    (mac : string) (d : BLEDevice) (rest : list BLEDevice) :
  dev_mac_addr self = Some mac ->
  device self = None ->
  scan_results w (scans_done w) = d :: rest ->
  name d <> dev_name self ->
  find_device (self, w) = Raise AttributeError.
Proof.
  intros Hmac Hdev Hscan Hname. rewrite find_device_unfold, Hscan.
  cbn [find_device_loop]. unfold bind at 1, get_self. cbn [fst snd].
  rewrite (proj2 (String.eqb_neq _ _) Hname), Hmac, Hdev. reflexivity.
Qed.

(** A pass that returns [None] from an object holding no device: no name
    matches, and either no address is configured or the scan is empty. *)
Lemma find_device_None_inv {U : Type} (self : Meter U) (w : World U)
    (st' : St U) :
  device self = None ->
  find_device (self, w) = Ok (None, st') ->
  st' = (self, with_scans_done w (S (scans_done w)))
  /\ no_name_match (dev_name self) (scan_results w (scans_done w))
  /\ (dev_mac_addr self = None \/ scan_results w (scans_done w) = []).
Proof.
  intros Hdev H. rewrite find_device_unfold in H.
  split; [now apply find_device_loop_None in H|].
  destruct (scan_results w (scans_done w)) as [|d rest] eqn:Hscan.
  - split; [intros d [] | now right].
  - destruct (dev_mac_addr self) as [mac|] eqn:Hmac.
    + exfalso.
      destruct (String.eqb_spec (name d) (dev_name self)) as [Heq|Hne].
      * cbn [find_device_loop] in H. unfold bind at 1, get_self in H.
        cbn [fst snd] in H. rewrite (proj2 (String.eqb_eq _ _) Heq) in H.
        cbn in H. discriminate.
      * cbn [find_device_loop] in H. unfold bind at 1, get_self in H.
        cbn [fst snd] in H.
        rewrite (proj2 (String.eqb_neq _ _) Hne), Hmac, Hdev in H.
        cbn in H. discriminate.
    + split; [|now left].
      rewrite find_device_loop_by_name in H by exact Hmac.
      intros d' Hin Heq.
      destruct (find (fun d0 => String.eqb (name d0) (dev_name self)) (d :: rest))
        as [x|] eqn:Hfind; [discriminate|].
      pose proof (find_none _ _ Hfind d' Hin) as Hd'. cbn beta in Hd'.
      rewrite (proj2 (String.eqb_eq _ _) Heq) in Hd'. discriminate.
Qed.

(** C4 (the code departs from the claim).  With an address configured and no
    device held, a scan whose only device sits at that address under another
    name does not return that device: the pass stops with an AttributeError,
    because line 33 reads the address of [self.device], which is [None],
    and not the address of the candidate [d].  When the object already holds
    a device at the configured address, the same line accepts a candidate
    that matches neither by name nor by address. *)
Theorem find_device_reads_held_device_address :
  find_device (dl24_by_address, steady_world [renamed_unit])
    = Raise AttributeError
  /\ String.eqb (lower (address renamed_unit)) (lower "27:4B:B0:47:69:84") = true
  /\ find_device (set_device dl24_by_address (Some held_unit),
                  steady_world [stranger])
     = Ok (Some stranger,
           (set_device dl24_by_address (Some stranger),
            with_scans_done (steady_world [stranger]) 1)).
Proof. repeat split. Qed.

(** C5 (the code departs from the claim).  With an address configured and no
    device held, a scan of one device that matches neither the name nor the
    address is not answered with [None]: the pass stops with an
    AttributeError.  The same scan is answered with [None] once no address
    is configured, and so is an empty scan. *)
Theorem find_device_raises_on_stranger :
  find_device (ud18_by_address, steady_world [stranger])
    = Raise AttributeError
  /\ find_device (ud18 (U := unit) None, steady_world [stranger])
     = Ok (None, (ud18 None, with_scans_done (steady_world [stranger]) 1))
  /\ find_device (ud18_by_address, steady_world [])
     = Ok (None, (ud18_by_address, with_scans_done (steady_world []) 1)).
Proof. repeat split. Qed.

(** ** Giving up *)

(** The give-up path of lines 45-50.  From an object that holds no device,
    [connect(keep_trying=False)] whose scan pass returns [None] returns
    [False] for any positive fuel: exactly one scan has been made,
    ["device not found"] has been written, no connection was attempted,
    nothing was subscribed, and the object is unchanged.  By
    [find_device_None_inv] the pass returns [None] exactly when no device
    carries the name and either no address is configured or the scan is
    empty. *)
Theorem connect_gives_up_after_one_scan {U : Type} (fuel : nat)
    (self : Meter U) (w : World U) :
  device self = None ->
  (exists st', find_device (self, w) = Ok (None, st')) ->
  connect (S fuel) false (self, w) =
  Ok (false,
      (self,
       with_stdout (with_scans_done w (S (scans_done w)))
                   (stdout w ++ ["device not found"%string]))).
Proof.
  intros Hdev [st' Hfind].
  destruct (find_device_None_inv self w st' Hdev Hfind) as [-> _].
  unfold connect. unfold bind at 1.
  cbn [connect_search]. unfold bind at 1, get_self at 1. cbn [fst snd].
  rewrite Hdev. unfold bind at 1. rewrite Hfind.
  unfold bind at 1, get_self at 1. cbn [fst snd]. rewrite Hdev.
  reflexivity.
Qed.

Lemma connect_gives_up_after_one_scan_witness :
  device (dl24 (U := unit) None) = None
  /\ (exists st', find_device (dl24 None, steady_world [stranger])
                  = Ok (None, st'))
  /\ connect 7 false (dl24 None, steady_world [stranger]) =
     Ok (false,
         (dl24 None,
          mkWorld (fun _ => [stranger]) 1 (fun _ => true) [] []
                  ["device not found"%string] tt)).
Proof.
  assert (Hfind : exists st', find_device (dl24 None, steady_world [stranger])
                              = Ok (None, st'))
    by (eexists; reflexivity).
  split; [reflexivity|]. split; [exact Hfind|].
  rewrite (connect_gives_up_after_one_scan 6 (dl24 None)
             (steady_world [stranger]) eq_refl Hfind).
  reflexivity.
Defined.

(** What [connect] does when the scan pass itself faults: the exception of
    [find_device] passes through, whatever [keep_trying] says. *)
Lemma connect_passes_fault_on {U : Type} (fuel : nat) (keep_trying : bool)
    (self : Meter U) (w : World U) (e : PyExn) :
  device self = None ->
  find_device (self, w) = Raise e ->
  connect (S fuel) keep_trying (self, w) = Raise e.
Proof.
  intros Hdev Hfind. unfold connect. unfold bind at 1.
  cbn [connect_search]. unfold bind at 1, get_self at 1. cbn [fst snd].
  rewrite Hdev. unfold bind at 1. rewrite Hfind. reflexivity.
Qed.

(** C6 (the code departs from the claim).  With an address configured and no
    device held, a scan whose only device matches neither the name nor the
    address finds no matching device, yet [connect(keep_trying=False)] does
    not return [False]: for every positive fuel, and for either value of
    [keep_trying], the AttributeError raised on line 33 of [find_device]
    passes through [connect].  On the same scan the object without a
    configured address does give up with [False] after exactly one scan. *)
Theorem connect_raises_instead_of_giving_up :
  String.eqb (name stranger) (dev_name dl24_by_address) = false
  /\ String.eqb (lower (address stranger)) (lower "27:4B:B0:47:69:84") = false
  /\ (forall (fuel : nat) (keep_trying : bool),
        connect (S fuel) keep_trying (dl24_by_address, steady_world [stranger])
        = Raise AttributeError)
  /\ connect 1 false (dl24 None, steady_world [stranger])
     = Ok (false,
           (dl24 None,
            with_stdout (with_scans_done (steady_world [stranger]) 1)
                        ["device not found"%string])).
Proof.
  split; [reflexivity|]. split; [reflexivity|]. split; [|reflexivity].
  intros fuel keep_trying.
  apply connect_passes_fault_on; [reflexivity|].
  apply (find_device_faults dl24_by_address (steady_world [stranger])
           "27:4B:B0:47:69:84" stranger []); try reflexivity.
  discriminate.
Qed.

(** * Further properties of the drivers *)

(** ** One scan pass *)

Lemma find_device_loop_inv {U : Type} (devices : list BLEDevice) :
  forall (self : Meter U) (w : World U) (r : option BLEDevice) (st' : St U),
    find_device_loop devices (self, w) = Ok (r, st') ->
    match r with
    | Some d => In d devices /\ st' = (set_device self (Some d), w)
    | None => st' = (self, w)
    end.
Proof.
  induction devices as [|d rest IH]; intros self w r st' H.
  - cbn in H. injection H as <- <-. reflexivity.
  - cbn [find_device_loop] in H. unfold bind, get_self in H. cbn [fst snd] in H.
    destruct (String.eqb (name d) (dev_name self)).
    + cbn in H. injection H as <- <-. split; [now left | reflexivity].
    + assert (Hrest : find_device_loop rest (self, w) = Ok (r, st') ->
                      match r with
                      | Some d0 => In d0 (d :: rest)
                                   /\ st' = (set_device self (Some d0), w)
                      | None => st' = (self, w)
                      end).
      { intro Hr. specialize (IH self w r st' Hr).
        destruct r; [|exact IH]. destruct IH. split; [now right | assumption]. }
      destruct (dev_mac_addr self) as [mac|].
      * destruct (device self) as [cur|]; cbn in H; [|discriminate].
        destruct (String.eqb (lower (address cur)) (lower mac)).
        -- cbn in H. injection H as <- <-. split; [now left | reflexivity].
        -- now apply Hrest.
      * cbn in H. now apply Hrest.
Qed.

(** X1. A pass that returns at all has made exactly one scan and touched
    nothing else in the world; a returned device is one of the devices of
    that scan and is now held by the object, every other attribute being as
    before; a pass that returns [None] leaves the object as it was. *)
Theorem find_device_result_is_scanned_and_held {U : Type} (self : Meter U)
    (w : World U) (r : option BLEDevice) (st' : St U) :
  find_device (self, w) = Ok (r, st') ->
  snd st' = with_scans_done w (S (scans_done w))
  /\ match r with
     | Some d => In d (scan_results w (scans_done w))
                 /\ fst st' = set_device self (Some d)
     | None => fst st' = self
     end.
Proof.
  intro H. rewrite find_device_unfold in H.
  apply find_device_loop_inv in H.
  destruct r as [d|].
  - destruct H as [Hin ->]. cbn [fst snd]. auto.
  - rewrite H. cbn [fst snd]. auto.
Qed.

Lemma find_device_result_is_scanned_and_held_witness :
  find_device (dl24 None, steady_world [stranger; held_unit; renamed_unit])
  = Ok (Some held_unit,
        (set_device (dl24 None) (Some held_unit),
         with_scans_done (steady_world [stranger; held_unit; renamed_unit]) 1))
  /\ In held_unit [stranger; held_unit; renamed_unit].
Proof.
  assert (H : find_device
                (dl24 None, steady_world [stranger; held_unit; renamed_unit])
              = Ok (Some held_unit,
                    (set_device (dl24 None) (Some held_unit),
                     with_scans_done
                       (steady_world [stranger; held_unit; renamed_unit]) 1)))
    by reflexivity.
  split; [exact H|].
  destruct (find_device_result_is_scanned_and_held _ _ _ _ H) as [_ [Hin _]].
  exact Hin.
Defined.

(** X2. With no address configured, a pass returns the first device in scan
    order that carries the configured name and stores it in the object; if
    no device carries the name it returns [None] and the object is
    unchanged.  Either way exactly one scan has been made. *)
Theorem find_device_first_by_name {U : Type} (self : Meter U) (w : World U) :
  dev_mac_addr self = None ->
  find_device (self, w) =
  match find (fun d => String.eqb (name d) (dev_name self))
             (scan_results w (scans_done w)) with
  | Some d => Ok (Some d, (set_device self (Some d),
                           with_scans_done w (S (scans_done w))))
  | None => Ok (None, (self, with_scans_done w (S (scans_done w))))
  end.
Proof.
  intro Hmac. rewrite find_device_unfold.
  now apply find_device_loop_by_name.
Qed.

Lemma find_device_first_by_name_witness :
  dev_mac_addr (dl24 (U := unit) None) = None
  /\ find_device
       (dl24 None,
        steady_world [stranger; mkDevice "DL24_BLE" "AA:AA"; held_unit])
     = Ok (Some (mkDevice "DL24_BLE" "AA:AA"),
           (set_device (dl24 None) (Some (mkDevice "DL24_BLE" "AA:AA")),
            with_scans_done
              (steady_world [stranger; mkDevice "DL24_BLE" "AA:AA"; held_unit])
              1)).
Proof.
  split; [reflexivity|].
  rewrite (find_device_first_by_name (dl24 None)
             (steady_world [stranger; mkDevice "DL24_BLE" "AA:AA"; held_unit])
             eq_refl).
  reflexivity.
Defined.

(** X3. With an address configured and no device held, the outcome of a pass
    is decided by the first device of the scan alone: an empty scan gives
    [None], a first device carrying the configured name is returned and
    held, and any other first device ends the pass with an AttributeError,
    whatever follows it in the scan. *)
Theorem find_device_unheld_decided_by_first {U : Type} (self : Meter U)
    (w : World U) (mac : string) :
  device self = None ->
  dev_mac_addr self = Some mac ->
  find_device (self, w) =
  match scan_results w (scans_done w) with
  | [] => Ok (None, (self, with_scans_done w (S (scans_done w))))
  | d :: _ =>
      if String.eqb (name d) (dev_name self)
      then Ok (Some d, (set_device self (Some d),
                        with_scans_done w (S (scans_done w))))
      else Raise AttributeError
  end.
Proof.
  intros Hdev Hmac. rewrite find_device_unfold.
  destruct (scan_results w (scans_done w)) as [|d rest]; [reflexivity|].
  cbn [find_device_loop]. unfold bind at 1, get_self. cbn [fst snd].
  destruct (String.eqb (name d) (dev_name self)); [reflexivity|].
  rewrite Hmac, Hdev. reflexivity.
Qed.

Lemma find_device_unheld_decided_by_first_witness :
  device dl24_by_address = None
  /\ dev_mac_addr dl24_by_address = Some "27:4B:B0:47:69:84"
  /\ find_device (dl24_by_address, steady_world [stranger; held_unit])
     = Raise AttributeError
  /\ find_device (dl24_by_address, steady_world [held_unit; stranger])
     = Ok (Some held_unit,
           (set_device dl24_by_address (Some held_unit),
            with_scans_done (steady_world [held_unit; stranger]) 1)).
Proof.
  do 2 (split; [reflexivity|]). split.
  - rewrite (find_device_unheld_decided_by_first dl24_by_address
               (steady_world [stranger; held_unit]) _ eq_refl eq_refl).
    reflexivity.
  - rewrite (find_device_unheld_decided_by_first dl24_by_address
               (steady_world [held_unit; stranger]) _ eq_refl eq_refl).
    reflexivity.
Defined.

Lemma find_device_loop_held_elsewhere {U : Type} (devices : list BLEDevice)
    (self : Meter U) (w : World U) (cur : BLEDevice) (mac : string) :
  device self = Some cur ->
  dev_mac_addr self = Some mac ->
  String.eqb (lower (address cur)) (lower mac) = false ->
  find_device_loop devices (self, w) =
  match find (fun d => String.eqb (name d) (dev_name self)) devices with
  | Some d => Ok (Some d, (set_device self (Some d), w))
  | None => Ok (None, (self, w))
  end.
Proof.
  intros Hdev Hmac Hneq. induction devices as [|d rest IH]; [reflexivity|].
  cbn [find_device_loop find]. unfold bind at 1, get_self. cbn [fst snd].
  destruct (String.eqb (name d) (dev_name self)); [reflexivity|].
  rewrite Hmac, Hdev. cbn [address_of]. unfold bind at 1, ret at 1.
  unfold bind at 1, ret at 1. rewrite Hneq. exact IH.
Qed.

(** X4. With an address configured and a device already held, a pass never
    raises, and the address test looks at the held device only.  If the held
    device sits at the configured address (compared in lower case), the
    first device of the scan is returned and held, whatever its name and
    address are; otherwise the pass is a search by name, as if no address
    were configured. *)
Theorem find_device_held_compares_held_address {U : Type} (self : Meter U)
    (w : World U) (cur : BLEDevice) (mac : string) :
  device self = Some cur ->
  dev_mac_addr self = Some mac ->
  find_device (self, w) =
  if String.eqb (lower (address cur)) (lower mac) then
    match scan_results w (scans_done w) with
    | [] => Ok (None, (self, with_scans_done w (S (scans_done w))))
    | d :: _ => Ok (Some d, (set_device self (Some d),
                             with_scans_done w (S (scans_done w))))
    end
  else
    match find (fun d => String.eqb (name d) (dev_name self))
               (scan_results w (scans_done w)) with
    | Some d => Ok (Some d, (set_device self (Some d),
                             with_scans_done w (S (scans_done w))))
    | None => Ok (None, (self, with_scans_done w (S (scans_done w))))
    end.
Proof.
  intros Hdev Hmac. rewrite find_device_unfold.
  destruct (String.eqb (lower (address cur)) (lower mac)) eqn:Haddr.
  - destruct (scan_results w (scans_done w)) as [|d rest]; [reflexivity|].
    cbn [find_device_loop]. unfold bind at 1, get_self. cbn [fst snd].
    destruct (String.eqb (name d) (dev_name self)); [reflexivity|].
    rewrite Hmac, Hdev. cbn [address_of]. unfold bind at 1, ret at 1.
    unfold bind at 1, ret at 1. rewrite Haddr. reflexivity.
  - now apply (find_device_loop_held_elsewhere _ self _ cur mac).
Qed.

Lemma find_device_held_compares_held_address_witness :
  device (set_device dl24_by_address (Some held_unit)) = Some held_unit
  /\ dev_mac_addr (set_device dl24_by_address (Some held_unit))
     = Some "27:4B:B0:47:69:84"
  /\ find_device (set_device dl24_by_address (Some held_unit),
                  steady_world [stranger; held_unit])
     = Ok (Some stranger,
           (set_device dl24_by_address (Some stranger),
            with_scans_done (steady_world [stranger; held_unit]) 1))
  /\ find_device (set_device dl24_by_address (Some stranger),
                  steady_world [renamed_unit; held_unit])
     = Ok (Some held_unit,
           (set_device dl24_by_address (Some held_unit),
            with_scans_done (steady_world [renamed_unit; held_unit]) 1)).
Proof.
  do 2 (split; [reflexivity|]). split.
  - rewrite (find_device_held_compares_held_address
               (set_device dl24_by_address (Some held_unit))
               (steady_world [stranger; held_unit]) held_unit _
               eq_refl eq_refl).
    reflexivity.
  - rewrite (find_device_held_compares_held_address
               (set_device dl24_by_address (Some stranger))
               (steady_world [renamed_unit; held_unit]) stranger _
               eq_refl eq_refl).
    reflexivity.
Defined.

(** ** Connecting *)


(** Lines 52-62, once the loop has been left with device [d] held. *)
Lemma connect_after_search {U : Type} (fuel : nat) (keep_trying : bool)
    (st0 : St U) (self : Meter U) (w : World U) (d : BLEDevice) :
  connect_search fuel keep_trying st0 = Ok (None, (self, w)) ->
  device self = Some d ->
  connect fuel keep_trying st0 =
  Ok (link_ok w (address d),
      (set_client self (Some (mkClient (address d))),
       after_link w (address d) (data_char_uuid self))).
Proof.
  intros Hsearch Hdev. unfold connect. unfold bind at 1. rewrite Hsearch.
  unfold bind at 1, get_self at 1. cbn [fst snd]. rewrite Hdev.
  cbn [address_of]. unfold bind at 1, ret at 1.
  unfold bind at 1, put_self at 1. cbn [fst snd].
  unfold bind at 1, get_self at 1. cbn [fst snd].
  cbn [set_client client]. unfold bind at 1, BleakClient_connect at 1.
  cbn [fst snd client_address]. unfold after_link.
  destruct (link_ok w (address d)).
  - cbn. now rewrite <- app_assoc.
  - reflexivity.
Qed.

Lemma connect_search_found {U : Type} (fuel : nat) (keep_trying : bool)
    (self : Meter U) (w : World U) (d : BLEDevice) (st1 : St U) :
  device self = None ->
  find_device (self, w) = Ok (Some d, st1) ->
  connect_search (S fuel) keep_trying (self, w) =
  Ok (None,
      (set_device self (Some d),
       with_stdout (with_scans_done w (S (scans_done w)))
                   (stdout w ++ [found_line d]))).
Proof.
  intros Hdev Hfind.
  pose proof Hfind as Hinv. rewrite find_device_unfold in Hinv.
  apply find_device_loop_inv in Hinv. destruct Hinv as [_ ->].
  cbn [connect_search]. unfold bind at 1, get_self at 1. cbn [fst snd].
  rewrite Hdev. unfold bind at 1. rewrite Hfind. reflexivity.
Qed.





(** X7. From an object holding no device, if the first scan pass returns a
    device and the link to its address is refused, [connect] returns
    [False] without subscribing anything, having written only the "found"
    line; the object keeps the device and the client, so that a further
    [connect] will not scan again. *)
Theorem connect_returns_false_when_link_refused {U : Type} (fuel : nat)
    (keep_trying : bool) (self : Meter U) (w : World U) (d : BLEDevice)
    (st1 : St U) :
  device self = None ->
  find_device (self, w) = Ok (Some d, st1) ->
  link_ok w (address d) = false ->
  connect (S fuel) keep_trying (self, w) =
  Ok (false,
      (linked_to self d,
       mkWorld (scan_results w) (S (scans_done w)) (link_ok w)
               (connect_log w ++ [address d]) (notify_log w)
               (stdout w ++ [found_line d]) (user w))).
Proof.
  intros Hdev Hfind Hlink.
  rewrite (connect_after_search (S fuel) keep_trying (self, w) _ _ d
             (connect_search_found fuel keep_trying self w d st1 Hdev Hfind)
             eq_refl).
  unfold after_link. cbn [link_ok with_stdout with_scans_done address].
  rewrite Hlink. reflexivity.
Qed.

Lemma connect_returns_false_when_link_refused_witness :
  device (dl24 (U := unit) None) = None
  /\ connect 1 true
       (dl24 None, quiet_world (fun _ => [held_unit]) (fun _ => false) tt)
     = Ok (false,
           (linked_to (dl24 None) held_unit,
            mkWorld (fun _ => [held_unit]) 1 (fun _ => false)
                    ["27:4B:B0:47:69:84"%string] []
                    [found_line held_unit] tt)).
Proof.
  split; [reflexivity|].
  rewrite (connect_returns_false_when_link_refused 0 true (dl24 None)
             (quiet_world (fun _ => [held_unit]) (fun _ => false) tt)
             held_unit _ eq_refl eq_refl eq_refl).
  reflexivity.
Defined.

(** ** Retrying *)





(** X9. With no address configured and [keep_trying=True], as long as no
    scan ever shows the configured name [connect] does not return: whatever
    the fuel, it runs out inside the scanning loop. *)
Theorem connect_keeps_scanning_while_unseen {U : Type} (self : Meter U)
    (w : World U) (fuel : nat) :
  device self = None ->
  dev_mac_addr self = None ->
  (forall i, no_name_match (dev_name self)
                           (scan_results w (scans_done w + i))) ->
  connect fuel true (self, w) = Diverged.
Proof.
  intros Hdev Hmac Hmiss.
  assert (Hloop : connect_search fuel true (self, w) = Diverged).
  { revert w Hmiss. induction fuel as [|fuel IH]; intros w Hmiss.
    - cbn [connect_search]. unfold bind at 1, get_self at 1. cbn [fst snd].
      now rewrite Hdev.
    - assert (Hfind : find_device (self, w) =
                      Ok (None, (self, with_scans_done w (S (scans_done w))))).
      { apply find_device_name_only_not_found; [exact Hmac|].
        specialize (Hmiss 0%nat). now rewrite Nat.add_0_r in Hmiss. }
      cbn [connect_search]. unfold bind at 1, get_self at 1. cbn [fst snd].
      rewrite Hdev. unfold bind at 1. rewrite Hfind.
      unfold bind at 1, get_self at 1. cbn [fst snd]. rewrite Hdev.
      unfold bind at 1, write at 1, modify_world at 1. cbn [fst snd].
      unfold bind at 1, print at 1, write at 1, modify_world at 1.
      cbn [fst snd]. apply IH.
      intro i. cbn [with_scans_done scan_results scans_done].
      rewrite Nat.add_succ_comm. apply Hmiss. }
  unfold connect. unfold bind at 1. now rewrite Hloop.
Qed.

Lemma connect_keeps_scanning_while_unseen_witness :
  device (ud18 (U := unit) None) = None
  /\ dev_mac_addr (ud18 (U := unit) None) = None
  /\ connect 25 true (ud18 None, steady_world [stranger; held_unit])
     = Diverged.
Proof.
  do 2 (split; [reflexivity|]).
  apply (connect_keeps_scanning_while_unseen (ud18 None)
           (steady_world [stranger; held_unit]) 25 eq_refl eq_refl).
  intros i d Hin. destruct Hin as [<-|[<-|[]]]; discriminate.
Defined.

(** ** What the scanning loop leaves alone *)

Lemma set_device_same {U : Type} (self : Meter U) :
  set_device self (device self) = self.
Proof. now destruct self. Qed.

(** The loop only scans and writes: the link, the subscriptions, the
    consumer and every attribute but [device] are as before; it is left
    with a device held, or by [return False] under [keep_trying=False] with
    none held. *)
Lemma connect_search_inv {U : Type} (fuel : nat) (keep_trying : bool) :
  forall (st : St U) (r : option bool) (st' : St U),
    connect_search fuel keep_trying st = Ok (r, st') ->
    fst st' = set_device (fst st) (device (fst st'))
    /\ link_ok (snd st') = link_ok (snd st)
    /\ connect_log (snd st') = connect_log (snd st)
    /\ notify_log (snd st') = notify_log (snd st)
    /\ user (snd st') = user (snd st)
    /\ (scans_done (snd st) <= scans_done (snd st'))%nat
    /\ match r with
       | None => exists d, device (fst st') = Some d
       | Some b => b = false /\ keep_trying = false
                   /\ device (fst st') = None
       end.
Proof.
  induction fuel as [|fuel IH]; intros [self w] r st' H;
    cbn [connect_search] in H; unfold bind at 1, get_self at 1 in H;
    cbn [fst snd] in H.
  - destruct (device self) as [d|] eqn:Hdev; [|discriminate].
    injection H as <- <-. cbn [fst snd]. rewrite Hdev.
    rewrite <- Hdev, set_device_same, Hdev. repeat split; eauto.
  - destruct (device self) as [d|] eqn:Hdev.
    + injection H as <- <-. cbn [fst snd]. rewrite Hdev.
      rewrite <- Hdev, set_device_same, Hdev. repeat split; eauto.
    + unfold bind at 1 in H.
      destruct (find_device (self, w)) as [[r0 st1]| |] eqn:Hfind;
        try discriminate.
      rewrite find_device_unfold in Hfind.
      apply find_device_loop_inv in Hfind.
      destruct r0 as [d|].
      * destruct Hfind as [_ ->].
        unfold bind at 1, get_self at 1 in H. cbn [fst snd] in H.
        cbn in H. injection H as <- <-. cbn [fst snd].
        repeat split; [cbn [scans_done]; lia | now exists d].
      * subst st1.
        unfold bind at 1, get_self at 1 in H. cbn [fst snd] in H.
        rewrite Hdev in H.
        unfold bind at 1, write at 1, modify_world at 1 in H.
        cbn [fst snd] in H.
        destruct keep_trying.
        -- unfold bind at 1, print at 1, write at 1, modify_world at 1 in H.
           cbn [fst snd] in H.
           apply IH in H. cbn [fst snd] in H.
           cbn [with_scans_done scan_results scans_done link_ok connect_log
                notify_log stdout user] in H.
           destruct H as (H1 & H2 & H3 & H4 & H5 & H6 & H7).
           cbn [fst snd]. repeat split; try assumption. lia.
        -- cbn in H. injection H as <- <-. cbn [fst snd].
           rewrite set_device_same.
           repeat split; [cbn [scans_done]; lia | exact Hdev].
Qed.

(** X10. Under [keep_trying=True], [connect] never answers [False] for a
    device that was not found: whenever it returns [False], the object holds
    a device and a client for that device's address, the last link attempt
    logged is to that address, and the link refuses that address. *)
Theorem connect_keep_trying_false_means_link_refused {U : Type} (fuel : nat)
    (st st' : St U) :
  connect fuel true st = Ok (false, st') ->
  exists d,
    device (fst st') = Some d
    /\ client (fst st') = Some (mkClient (address d))
    /\ connect_log (snd st') = connect_log (snd st) ++ [address d]
    /\ link_ok (snd st) (address d) = false
    /\ notify_log (snd st') = notify_log (snd st).
Proof.
  intro H.
  destruct (connect_search fuel true st) as [[r [self1 w1]]| |] eqn:Hsearch;
    try (unfold connect in H; unfold bind at 1 in H; rewrite Hsearch in H;
         discriminate).
  pose proof (connect_search_inv fuel true st r (self1, w1) Hsearch)
    as (_ & Hlink & Hclog & Hnlog & _ & _ & Hr).
  cbn [fst snd] in *.
  destruct r as [b|].
  - destruct Hr as (_ & Hkt & _). discriminate.
  - destruct Hr as [d Hdev].
    rewrite (connect_after_search fuel true st self1 w1 d Hsearch Hdev) in H.
    injection H as Hb <-. cbn [fst snd].
    exists d. unfold after_link. rewrite Hb.
    cbn [connect_log notify_log set_client device client].
    rewrite Hdev, Hclog, Hnlog, <- Hlink, Hb. auto.
Qed.

Lemma connect_keep_trying_false_means_link_refused_witness :
  connect 4 true
    (dl24 None,
     world_changing_at 1 [] [held_unit] (fun _ => false))
  = Ok (false,
        (linked_to (dl24 None) held_unit,
         mkWorld (fun i => if (i =? 1)%nat then [held_unit] else [])
                 2 (fun _ => false) ["27:4B:B0:47:69:84"%string] []
                 ["device not found"%string; (", retrying..." ++ newline)%string;
                  found_line held_unit] tt))
  /\ exists d, device (linked_to (dl24 (U := unit) None) held_unit) = Some d
               /\ address d = "27:4B:B0:47:69:84"%string.
Proof.
  assert (H : connect 4 true
                (dl24 None,
                 world_changing_at 1 [] [held_unit] (fun _ => false))
              = Ok (false,
                    (linked_to (dl24 None) held_unit,
                     mkWorld (fun i => if (i =? 1)%nat then [held_unit] else [])
                             2 (fun _ => false) ["27:4B:B0:47:69:84"%string] []
                             ["device not found"%string;
                              (", retrying..." ++ newline)%string;
                              found_line held_unit] tt)))
    by reflexivity.
  split; [exact H|].
  destruct (connect_keep_trying_false_means_link_refused _ _ _ H)
    as (d & Hdev & _ & Hlog & _).
  exists d. split; [exact Hdev|].
  cbn [snd connect_log world_changing_at quiet_world app] in Hlog.
  now injection Hlog as <-.
Defined.

(** X11. Whenever [connect] returns, from any state and with either
    [keep_trying], the characteristic has been subscribed exactly when the
    answer is [True], and then once, under its lower-cased identifier; the
    consumer's state is untouched, no attribute other than [device] and
    [client] has changed, and the object holds a device. *)
Theorem connect_subscribes_iff_true {U : Type} (fuel : nat)
    (keep_trying : bool) (st st' : St U) (b : bool) :
  connect fuel keep_trying st = Ok (b, st') ->
  notify_log (snd st') =
    (if b then notify_log (snd st) ++ [lower (data_char_uuid (fst st))]
     else notify_log (snd st))
  /\ user (snd st') = user (snd st)
  /\ fst st' = set_client (set_device (fst st) (device (fst st')))
                          (client (fst st'))
  /\ (b = true -> exists d, device (fst st') = Some d
                            /\ client (fst st') = Some (mkClient (address d))).
Proof.
  intro H.
  destruct (connect_search fuel keep_trying st) as [[r [self1 w1]]| |]
    eqn:Hsearch;
    try (unfold connect in H; unfold bind at 1 in H; rewrite Hsearch in H;
         discriminate).
  pose proof (connect_search_inv fuel keep_trying st r (self1, w1) Hsearch)
    as (Hself & Hlink & Hclog & Hnlog & Huser & _ & Hr).
  cbn [fst snd] in *.
  destruct r as [b0|].
  - destruct Hr as (-> & _ & Hnone).
    unfold connect in H; unfold bind at 1 in H; rewrite Hsearch in H.
    cbn in H. injection H as <- <-.
    cbn [fst snd]. repeat split; try assumption.
    + rewrite Hnone in Hself. rewrite Hself. now destruct (fst st).
    + discriminate.
  - destruct Hr as [d Hdev].
    rewrite (connect_after_search fuel keep_trying st self1 w1 d Hsearch Hdev)
      in H.
    injection H as <- <-. cbn [fst snd].
    assert (Huuid : data_char_uuid self1 = data_char_uuid (fst st))
      by (rewrite Hself; reflexivity).
    unfold after_link. rewrite Huuid.
    repeat split.
    + destruct (link_ok w1 (address d)); cbn [notify_log]; now rewrite Hnlog.
    + destruct (link_ok w1 (address d)); cbn [user]; exact Huser.
    + rewrite Hdev in Hself. rewrite Hself. now destruct (fst st).
    + intros _. exists d. cbn [set_client device client]. auto.
Qed.

Lemma connect_subscribes_iff_true_witness :
  connect 3 false
    (init CurrentLoadMeter "DL24_BLE" None "FFE1" (Some recorder),
     quiet_world (fun _ => [held_unit]) (fun _ => true) [])
  = Ok (true,
        (linked_to (init CurrentLoadMeter "DL24_BLE" None "FFE1"
                         (Some recorder)) held_unit,
         mkWorld (fun _ => [held_unit]) 1 (fun _ => true)
                 ["27:4B:B0:47:69:84"%string] ["ffe1"%string]
                 [found_line held_unit; ("connected" ++ newline)%string;
                  ("notifications started" ++ newline)%string] []))
  /\ ["ffe1"%string] = [] ++ [lower "FFE1"].
Proof.
  assert (H : connect 3 false
                (init CurrentLoadMeter "DL24_BLE" None "FFE1" (Some recorder),
                 quiet_world (fun _ => [held_unit]) (fun _ => true) [])
              = Ok (true,
                    (linked_to (init CurrentLoadMeter "DL24_BLE" None "FFE1"
                                     (Some recorder)) held_unit,
                     mkWorld (fun _ => [held_unit]) 1 (fun _ => true)
                             ["27:4B:B0:47:69:84"%string] ["ffe1"%string]
                             [found_line held_unit;
                              ("connected" ++ newline)%string;
                              ("notifications started" ++ newline)%string] [])))
    by reflexivity.
  split; [exact H|].
  destruct (connect_subscribes_iff_true _ _ _ _ _ H) as [Hlog _].
  exact Hlog.
Defined.

(** ** The integer fields *)

Lemma byte_at_range (f : bytearray) (i : nat) : 0 <= byte_at f i < 256.
Proof. unfold byte_at. apply byte_val_range. Qed.

(** X12. For every 36-byte packet, the DL24 capacity and energy are
    multiples of ten: ten times a 24-bit, respectively 32-bit, unsigned
    number; the UD18 capacity is a 24-bit unsigned number. *)
Theorem integer_fields_ranges (f : bytearray) :
  List.length f = 36%nat ->
  (exists r k e,
      decode CurrentLoadMeter f = Ok (Decoded r)
      /\ capacityMilliampHours r = 10 * k /\ 0 <= k < 2 ^ 24
      /\ energyWattHours r = PyInt (10 * e) /\ 0 <= e < 2 ^ 32)
  /\ (exists r,
         decode UsbPowerMeter f = Ok (Decoded r)
         /\ 0 <= capacityMilliampHours r < 2 ^ 24).
Proof.
  intro Hlen.
  pose proof (byte_at_range f 10) as B10. pose proof (byte_at_range f 11) as B11.
  pose proof (byte_at_range f 12) as B12. pose proof (byte_at_range f 13) as B13.
  pose proof (byte_at_range f 14) as B14. pose proof (byte_at_range f 15) as B15.
  pose proof (byte_at_range f 16) as B16.
  split.
  - eexists. exists ((byte_at f 10 << 16) + (byte_at f 11 << 8) + byte_at f 12).
    exists ((byte_at f 13 << 24) + (byte_at f 14 << 16)
            + (byte_at f 15 << 8) + byte_at f 16).
    split.
    + rewrite decode_36 by exact Hlen. cbn [parse_packet].
      rewrite dl24_parse_packet_36 by exact Hlen. reflexivity.
    + cbn [capacityMilliampHours energyWattHours].
      rewrite !Z.shiftl_mul_pow2 by lia.
      repeat split; try lia. f_equal. lia.
  - eexists. split.
    + rewrite decode_36 by exact Hlen. cbn [parse_packet].
      rewrite ud18_parse_packet_36 by exact Hlen. reflexivity.
    + cbn [capacityMilliampHours]. rewrite !Z.shiftl_mul_pow2 by lia. lia.
Qed.

Lemma integer_fields_ranges_witness :
  List.length frame_A = 36%nat
  /\ exists r k, decode CurrentLoadMeter frame_A = Ok (Decoded r)
                 /\ capacityMilliampHours r = 10 * k /\ 0 <= k < 2 ^ 24.
Proof.
  split; [reflexivity|].
  destruct (integer_fields_ranges frame_A eq_refl)
    as [(r & k & e & Hdec & Hcap & Hk & _) _].
  exists r, k. auto.
Defined.

(** X13. The capacity field loses nothing: from the capacity of a decoded
    36-byte packet (divided by ten for the DL24) bytes 10, 11 and 12 of the
    packet are recovered as its three base-256 digits, most significant
    first. *)
Theorem capacity_determines_its_bytes (c : DeviceVariant) (f : bytearray)
    (r : Reading) :
  List.length f = 36%nat ->
  decode c f = Ok (Decoded r) ->
  let n := match c with
           | CurrentLoadMeter => capacityMilliampHours r / 10
           | UsbPowerMeter => capacityMilliampHours r
           end in
  byte_at f 10 = n / 65536
  /\ byte_at f 11 = (n / 256) mod 256
  /\ byte_at f 12 = n mod 256.
Proof.
  intros Hlen Hdec.
  pose proof (byte_at_range f 10) as B10. pose proof (byte_at_range f 11) as B11.
  pose proof (byte_at_range f 12) as B12.
  rewrite decode_36 in Hdec by exact Hlen.
  assert (Hn : match c with
               | CurrentLoadMeter => capacityMilliampHours r / 10
               | UsbPowerMeter => capacityMilliampHours r
               end = byte_at f 10 * 65536 + byte_at f 11 * 256 + byte_at f 12).
  { destruct c; cbn [parse_packet] in Hdec.
    - rewrite dl24_parse_packet_36 in Hdec by exact Hlen.
      apply (f_equal (fun x => match x with
                               | Ok (Decoded r0) => capacityMilliampHours r0
                               | _ => 0
                               end)) in Hdec.
      cbn [rbind capacityMilliampHours] in Hdec. rewrite <- Hdec.
      rewrite !Z.shiftl_mul_pow2 by lia. rewrite Z.div_mul by lia. lia.
    - rewrite ud18_parse_packet_36 in Hdec by exact Hlen.
      apply (f_equal (fun x => match x with
                               | Ok (Decoded r0) => capacityMilliampHours r0
                               | _ => 0
                               end)) in Hdec.
      cbn [rbind capacityMilliampHours] in Hdec. rewrite <- Hdec.
      rewrite !Z.shiftl_mul_pow2 by lia. lia. }
  cbv zeta. rewrite Hn. clear Hn Hdec.
  repeat split; Z.div_mod_to_equations; lia.
Qed.

Lemma capacity_determines_its_bytes_witness :
  List.length frame_B = 36%nat
  /\ decode UsbPowerMeter frame_B =
     Ok (Decoded (mkReading 30%float 5%float 100 (PyFloat 100%float)))
  /\ byte_at frame_B 12 = 100 mod 256.
Proof.
  assert (H : decode UsbPowerMeter frame_B =
              Ok (Decoded (mkReading 30%float 5%float 100 (PyFloat 100%float))))
    by reflexivity.
  split; [reflexivity|]. split; [exact H|].
  destruct (capacity_determines_its_bytes UsbPowerMeter frame_B _ eq_refl H)
    as (_ & _ & H12).
  exact H12.
Defined.

(** ** The handler on arbitrary packets *)

Lemma handle_data_raw {U : Type} (self : Meter U) (w : World U) (sender : Z)
    (data : bytearray) :
  callback self = None ->
  handle_data sender data (self, w) =
  Ok (tt, (self, with_stdout w (stdout w ++ [dump_line data]))).
Proof.
  intro Hcb. unfold handle_data, bind, get_self. cbn [fst snd]. rewrite Hcb.
  rewrite strip_hex_dump. unfold print, write, modify_world, with_stdout, dump_line.
  cbn [fst snd]. now rewrite string_app_assoc.
Qed.

Lemma notifications_raw {U : Type} (self : Meter U) (sender : Z)
    (frames : list bytearray) :
  callback self = None ->
  forall w : World U,
    notifications sender frames (self, w) =
    Ok (tt, (self, with_stdout w (stdout w ++ map dump_line frames))).
Proof.
  intro Hcb. induction frames as [|f frames IH]; intro w.
  - cbn. rewrite app_nil_r. now destruct w.
  - cbn [notifications map]. unfold bind at 1.
    rewrite (handle_data_raw self w sender f Hcb), IH.
    unfold with_stdout. cbn [scan_results scans_done link_ok connect_log
                             notify_log stdout user].
    now rewrite <- app_assoc.
Qed.

(** X15. Without a callback, a sequence of packets is answered by one line
    per packet, in arrival order and whatever the lengths: standard output
    grows by exactly those lines, and nothing else changes. *)
Theorem notifications_dump_every_packet {U : Type} (self : Meter U)
    (w : World U) (sender : Z) (frames : list bytearray) :
  callback self = None ->
  notifications sender frames (self, w) =
  Ok (tt, (self, with_stdout w (stdout w ++ map dump_line frames))).
Proof. intro Hcb. now apply notifications_raw. Qed.

Lemma notifications_dump_every_packet_witness :
  callback (ud18 (U := unit) None) = None
  /\ notifications 0 [zero10; []; [xde; xad; xbe; xef]]
       (ud18 None, steady_world [])
     = Ok (tt, (ud18 None,
                with_stdout (steady_world [])
                  [("data: 00 00 00 00 00 00 00 00 00 00" ++ newline)%string;
                   ("data: " ++ newline)%string;
                   ("data: DE AD BE EF" ++ newline)%string])).
Proof.
  split; [reflexivity|].
  rewrite (notifications_dump_every_packet (ud18 None) (steady_world []) 0
             [zero10; []; [xde; xad; xbe; xef]] eq_refl).
  reflexivity.
Defined.

(** ** Calling [connect] again *)


